(** * Block archiving: configuration, archiver roles and the ledger audit tool

    A shallow embedding of the Go sources of the block-archiving fork of the
    peer:
      - package [ledgerconfig]  (configuration getters with their defaults),
      - package [archiver]      ([initBlockArchiverParams]),
      - command [ledgerfsck]    ([ReadConfiguration], [Verify], [main]).

    Go's [int] and [uint64] are modelled by [Z] and [N]; the arithmetic the
    code performs on them is the loop increment of [Verify] and the
    [Height - 1] of [getCurrConfigBlockFromLedger], whose wrap-around at 2^64
    is written out.  Byte slices are [list byte], Go strings are [string],
    [error] values carry their message. *)

From stdpp Require Import gmap strings list pretty.
From Stdlib Require Import ZArith NArith Lia Strings.Ascii Strings.Byte.

Local Open Scope string_scope.
Local Open Scope list_scope.

(** ** Go base types *)

Abbreviation bytes := (list byte).

#[global] Instance byte_eq_decision : EqDecision byte := byte_eq_dec.
Definition error := string.

(** A Go result pair [(v, err)]. *)
Inductive result (A : Type) : Type :=
| OK (v : A)
| Err (e : error).
Arguments OK {A} v.
Arguments Err {A} e.

(** [bytes.Equal]: same length and same contents ([nil] and the empty slice
    are both the empty list here, and Go treats them as equal too). *)
Fixpoint bytes_Equal (a b : bytes) : bool :=
  match a, b with
  | [], [] => true
  | x :: a', y :: b' => Byte.eqb x y && bytes_Equal a' b'
  | _, _ => false
  end.

Definition uint64_modulus : N := 2 ^ 64.

(** [i++] on a [uint64]. *)
Definition uint64_inc (i : N) : N := ((i + 1) mod uint64_modulus)%N.

(** [h - 1] on a [uint64]. *)
Definition uint64_dec (h : N) : N :=
  (if h =? 0 then uint64_modulus - 1 else h - 1)%N.

(** [uint64(z)] for a Go [int] [z]: the value modulo 2^64. *)
Definition uint64_of_int (z : Z) : N := Z.to_N (z mod 2 ^ 64).

(** ** The configuration registry (viper)

    The code reads its configuration through the process-wide viper
    registry.  Only the four accessors the sources call are needed, so the
    registry is an interface; [MapViper] below is a registry held in a finite
    map, used to run the definitions. *)

Class Viper (V : Type) := {
  viper_IsSet : V → string → bool;
  viper_GetInt : V → string → Z;
  viper_GetBool : V → string → bool;
  viper_GetString : V → string → string;
  (* core/config.GetPath: the path stored under a key, made absolute *)
  config_GetPath : V → string → string;
}.

Inductive value :=
| VBool (b : bool)
| VInt (n : Z)
| VString (s : string).

Module MapViper.

Definition ToInt (o : option value) : Z :=
  match o with
  | Some (VInt n) => n
  | Some (VBool true) => 1
  | _ => 0
  end.

Definition ToBool (o : option value) : bool :=
  match o with
  | Some (VBool b) => b
  | Some (VInt n) => negb (n =? 0)%Z
  | Some (VString s) =>
      if decide (s ∈ ["1"; "t"; "T"; "TRUE"; "true"; "True"]) then true else false
  | None => false
  end.

Definition ToString (o : option value) : string :=
  match o with
  | Some (VString s) => s
  | Some (VBool true) => "true"
  | Some (VBool false) => "false"
  | _ => ""
  end.

#[global] Instance map_viper : Viper (gmap string value) := {|
  viper_IsSet m k := bool_decide (is_Some (m !! k));
  viper_GetInt m k := ToInt (m !! k);
  viper_GetBool m k := ToBool (m !! k);
  viper_GetString m k := ToString (m !! k);
  config_GetPath m k := ToString (m !! k);
|}.

End MapViper.

(** ** Package ledgerconfig *)

Module ledgerconfig.
Section Getters.
Context {V : Type} `{Viper V}.
(* path/filepath.Join on two elements *)
Variable filepath_Join : string → string → string.
Variable cfg : V.

Definition confPeerFileSystemPath := "peer.fileSystemPath".
Definition confLedgersData := "ledgersData".
Definition confChains := "chains".

(* The maximum size of each data chunk which puts together a certain amount of blocks *)
Definition confMaxBlockfileSize := "ledger.maxBlockfileSize".
(* URL of the block archiving repository *)
Definition confBlockArchiverURL := "ledger.blockArchiver.url".
(* PATH where archived data chunks are stored on the block archiving repository *)
Definition confBlockArchiverDir := "ledger.blockArchiver.dir".
(* The number of data chunks archived on each archiving opportunity at once *)
Definition confArchiverEach := "peer.archiver.each".
(* The least number of data chunks which a peer node should keep on local file system *)
Definition confArchiverKeep := "peer.archiver.keep".

Definition defaultBlockArchiverURL := "ledger-bank:222".
Definition defaultBlockArchiverDir := "/tmp".
Definition defaultArchiverEach : Z := 30.
Definition defaultArchiverKeep : Z := 10.

Definition GetRootPath : string :=
  let sysPath := config_GetPath cfg confPeerFileSystemPath in
  filepath_Join sysPath confLedgersData.

Definition GetBlockStorePath : string :=
  filepath_Join GetRootPath confChains.

Definition GetMaxBlockfileSize : Z :=
  let maxBlockfileSize := viper_GetInt cfg confMaxBlockfileSize in
  (* if maxBlockfileSize was unset, default to 64MB *)
  let maxBlockfileSize :=
    if negb (viper_IsSet cfg confMaxBlockfileSize)
    then (64 * 1024 * 1024)%Z else maxBlockfileSize in
  maxBlockfileSize.

Definition GetBlockArchiverURL : string :=
  let url := viper_GetString cfg confBlockArchiverURL in
  let url :=
    if negb (viper_IsSet cfg confBlockArchiverURL)
    then defaultBlockArchiverURL else url in
  url.

Definition GetBlockArchiverDir : string :=
  let dir := viper_GetString cfg confBlockArchiverDir in
  let dir :=
    if negb (viper_IsSet cfg confBlockArchiverDir)
    then defaultBlockArchiverDir else dir in
  dir.

Definition GetArchivingParameters : Z * Z :=
  let numArchiving := viper_GetInt cfg confArchiverEach in
  let numArchiving :=
    if negb (viper_IsSet cfg confArchiverEach)
    then defaultArchiverEach else numArchiving in
  let numKeeping := viper_GetInt cfg confArchiverKeep in
  let numKeeping :=
    if negb (viper_IsSet cfg confArchiverKeep)
    then defaultArchiverKeep else numKeeping in
  (numArchiving, numKeeping).

(** *** The other getters of the package *)

Definition confLedgerProvider := "ledgerProvider".
Definition confStateleveldb := "stateLeveldb".
Definition confHistoryLeveldb := "historyLeveldb".
Definition confBookkeeper := "bookkeeper".
Definition confConfigHistory := "configHistory".
Definition couchdbRedoLogPath := "couchdbRedoLogs".
Definition confPvtdataStore := "pvtdataStore".
Definition confEnableHistoryDatabase := "ledger.history.enableHistoryDatabase".

Record conf := {
  Name : string;
  DefaultVal : Z;
}.

Definition confCollElgProcMaxDbBatchSize : conf :=
  {| Name := "ledger.pvtdataStore.collElgProcMaxDbBatchSize"; DefaultVal := 5000 |}.
Definition confCollElgProcDbBatchesInterval : conf :=
  {| Name := "ledger.pvtdataStore.collElgProcDbBatchesInterval"; DefaultVal := 1000 |}.

(* IsCouchDBEnabled exposes the useCouchDB variable *)
Definition IsCouchDBEnabled : bool :=
  let stateDatabase := viper_GetString cfg "ledger.state.stateDatabase" in
  if String.eqb stateDatabase "CouchDB" then true else false.

Definition GetLedgerProviderPath : string :=
  filepath_Join GetRootPath confLedgerProvider.

Definition GetStateLevelDBPath : string :=
  filepath_Join GetRootPath confStateleveldb.

Definition GetHistoryLevelDBPath : string :=
  filepath_Join GetRootPath confHistoryLeveldb.

Definition GetPvtdataStorePath : string :=
  filepath_Join GetRootPath confPvtdataStore.

Definition GetInternalBookkeeperPath : string :=
  filepath_Join GetRootPath confBookkeeper.

Definition GetConfigHistoryPath : string :=
  filepath_Join GetRootPath confConfigHistory.

Definition GetCouchdbRedologsPath : string :=
  filepath_Join GetRootPath couchdbRedoLogPath.




Definition GetPvtdataStorePurgeInterval : N :=
  let purgeInterval := viper_GetInt cfg "ledger.pvtdataStore.purgeInterval" in
  let purgeInterval :=
    if (purgeInterval <=? 0)%Z then 100%Z else purgeInterval in
  uint64_of_int purgeInterval.

Definition GetPvtdataStoreCollElgProcMaxDbBatchSize : Z :=
  let collElgProcMaxDbBatchSize :=
    viper_GetInt cfg (Name confCollElgProcMaxDbBatchSize) in
  let collElgProcMaxDbBatchSize :=
    if (collElgProcMaxDbBatchSize <=? 0)%Z
    then DefaultVal confCollElgProcMaxDbBatchSize
    else collElgProcMaxDbBatchSize in
  collElgProcMaxDbBatchSize.

Definition GetPvtdataStoreCollElgProcDbBatchesInterval : Z :=
  let collElgProcDbBatchesInterval :=
    viper_GetInt cfg (Name confCollElgProcDbBatchesInterval) in
  let collElgProcDbBatchesInterval :=
    if (collElgProcDbBatchesInterval <=? 0)%Z
    then DefaultVal confCollElgProcDbBatchesInterval
    else collElgProcDbBatchesInterval in
  collElgProcDbBatchesInterval.

Definition IsHistoryDBEnabled : bool :=
  viper_GetBool cfg confEnableHistoryDatabase.

Definition IsQueryReadsHashingEnabled : bool := true.

Definition GetMaxDegreeQueryReadsHashing : N := 50.



End Getters.
End ledgerconfig.

(** ** Package blockarchive: the process-wide archiving variables

    [initBlockArchiverParams] assigns seven package-level variables of
    package [blockarchive]; their declarations are not part of the sources
    at hand.  The process-wide state is a record of the seven, and an
    assignment to one of them is a function on that record. *)

Module blockarchive.

Record Globals := {
  IsArchiver : bool;
  IsClient : bool;
  NumBlockfileEachArchiving : Z;
  NumKeepLatestBlocks : Z;
  BlockArchiverDir : string;
  BlockArchiverURL : string;
  BlockStorePath : string;
}.

Definition set_IsArchiver (b : bool) (g : Globals) : Globals :=
  {| IsArchiver := b; IsClient := IsClient g;
     NumBlockfileEachArchiving := NumBlockfileEachArchiving g;
     NumKeepLatestBlocks := NumKeepLatestBlocks g;
     BlockArchiverDir := BlockArchiverDir g;
     BlockArchiverURL := BlockArchiverURL g;
     BlockStorePath := BlockStorePath g |}.

Definition set_IsClient (b : bool) (g : Globals) : Globals :=
  {| IsArchiver := IsArchiver g; IsClient := b;
     NumBlockfileEachArchiving := NumBlockfileEachArchiving g;
     NumKeepLatestBlocks := NumKeepLatestBlocks g;
     BlockArchiverDir := BlockArchiverDir g;
     BlockArchiverURL := BlockArchiverURL g;
     BlockStorePath := BlockStorePath g |}.

Definition set_archiving_parameters (p : Z * Z) (g : Globals) : Globals :=
  {| IsArchiver := IsArchiver g; IsClient := IsClient g;
     NumBlockfileEachArchiving := fst p;
     NumKeepLatestBlocks := snd p;
     BlockArchiverDir := BlockArchiverDir g;
     BlockArchiverURL := BlockArchiverURL g;
     BlockStorePath := BlockStorePath g |}.

Definition set_BlockArchiverDir (d : string) (g : Globals) : Globals :=
  {| IsArchiver := IsArchiver g; IsClient := IsClient g;
     NumBlockfileEachArchiving := NumBlockfileEachArchiving g;
     NumKeepLatestBlocks := NumKeepLatestBlocks g;
     BlockArchiverDir := d;
     BlockArchiverURL := BlockArchiverURL g;
     BlockStorePath := BlockStorePath g |}.

Definition set_BlockArchiverURL (u : string) (g : Globals) : Globals :=
  {| IsArchiver := IsArchiver g; IsClient := IsClient g;
     NumBlockfileEachArchiving := NumBlockfileEachArchiving g;
     NumKeepLatestBlocks := NumKeepLatestBlocks g;
     BlockArchiverDir := BlockArchiverDir g;
     BlockArchiverURL := u;
     BlockStorePath := BlockStorePath g |}.

Definition set_BlockStorePath (p : string) (g : Globals) : Globals :=
  {| IsArchiver := IsArchiver g; IsClient := IsClient g;
     NumBlockfileEachArchiving := NumBlockfileEachArchiving g;
     NumKeepLatestBlocks := NumKeepLatestBlocks g;
     BlockArchiverDir := BlockArchiverDir g;
     BlockArchiverURL := BlockArchiverURL g;
     BlockStorePath := p |}.

(** The state of a fresh process: every variable holds its Go zero value. *)
Definition zero : Globals := {|
  IsArchiver := false;
  IsClient := false;
  NumBlockfileEachArchiving := 0;
  NumKeepLatestBlocks := 0;
  BlockArchiverDir := "";
  BlockArchiverURL := "";
  BlockStorePath := "";
|}.

(** What a block store of the process reads when it asks for its role: the
    two package-level flags.  There is no per-store field. *)
Definition role (g : Globals) : bool * bool := (IsArchiver g, IsClient g).

End blockarchive.

(** ** Package archiver *)

Module archiver.
Section Init.
Context {V : Type} `{Viper V}.
Variable filepath_Join : string → string → string.

Import blockarchive.

Definition initBlockArchiverParams (cfg : V) (g : Globals) : Globals :=
  let g := set_IsArchiver (viper_GetBool cfg "peer.archiver.enabled") g in
  let g :=
    if IsArchiver g then
      set_archiving_parameters (ledgerconfig.GetArchivingParameters cfg) g
    else
      set_IsClient (viper_GetBool cfg "peer.archiving.enabled") g in
  let g := set_BlockArchiverDir (ledgerconfig.GetBlockArchiverDir cfg) g in
  let g := set_BlockArchiverURL (ledgerconfig.GetBlockArchiverURL cfg) g in
  let g := set_BlockStorePath (ledgerconfig.GetBlockStorePath filepath_Join cfg) g in
  g.

(** [InitBlockArchiver] only logs around the call ([serve] invokes it once,
    when the peer starts). *)
Definition InitBlockArchiver (cfg : V) (g : Globals) : Globals :=
  initBlockArchiverParams cfg g.

End Init.
End archiver.

(** ** Command ledgerfsck: data and collaborators *)

Module ledgerfsck.

(** protos/common.  A block handed out by the ledger carries a header. *)
Record BlockHeader := {
  Number : N;
  PreviousHash : bytes;
  DataHash : bytes;
}.

Record Block := {
  Header : BlockHeader;
  Data : list bytes;
  Metadata : list bytes;
}.

Record BlockchainInfo := {
  Height : N;
  CurrentBlockHash : bytes;
  PreviousBlockHash : bytes;
}.

(** ledger.QueryExecutor and ledger.PeerLedger, the methods the tool calls.
    The tool opens a ledger nobody else writes to, so a call with the same
    argument gives the same answer throughout a run. *)
Record QueryExecutor := {
  GetState : string → string → result bytes;
}.

Record PeerLedger := {
  GetBlockchainInfo : result BlockchainInfo;
  GetBlockByNumber : N → result Block;
  NewQueryExecutor : result QueryExecutor;
}.

Inductive Config := MkConfig (raw : bytes).
Inductive Bundle := MkBundle (channel : string) (conf : Config).
Inductive SigningIdentity := MkSigner (id : bytes).

(** The message crypto service of gossip, seen through its one method used
    here: [VerifyBlock chainID seqNum signedBlock], [None] for a nil error. *)
Definition MCS := string → N → bytes → option error.

Record ledgerFsck := {
  channelName : string;
  mspConfigPath : string;
  mspID : string;
  mspType : string;
  ledger : option PeerLedger;
  bundle : option Bundle;
}.

(** Everything outside the command that a run depends on. *)
Record Env := {
  (* protoutil.BlockHeaderHash *)
  BlockHeaderHash : BlockHeader → bytes;
  (* proto.Marshal of a block *)
  proto_Marshal : Block → result bytes;
  (* proto.Unmarshal into a pb.Config *)
  proto_Unmarshal : bytes → result Config;
  (* mgmt.GetLocalSigningIdentityOrPanic; None when it panics *)
  LocalSigningIdentity : option SigningIdentity;
  (* gossip.NewMCS(fsck, signer, mgmt.NewDeserializersManager()); the policy
     manager it consults is that of fsck.bundle *)
  gossip_NewMCS : option Bundle → SigningIdentity → MCS;
  (* common.InitConfig *)
  common_InitConfig : string → option error;
  (* common.InitCrypto(mspConfigPath, mspID, mspType) *)
  common_InitCrypto : string → string → string → option error;
  (* opsSystem.Start *)
  opsSystem_Start : option error;
  (* ledgermgmt.GetLedgerIDs, ledgermgmt.OpenLedger *)
  ledgermgmt_GetLedgerIDs : result (list string);
  ledgermgmt_OpenLedger : string → result PeerLedger;
  (* protoutil.GetLastConfigIndexFromBlock *)
  GetLastConfigIndexFromBlock : Block → result N;
  (* channelconfig.NewBundle *)
  channelconfig_NewBundle : string → Config → result Bundle;
  (* whether the three capability checks of capabilitiesSupportedOrPanic pass *)
  capabilitiesSupported : Bundle → bool;
}.

(** ** What a run does: events and outcomes *)

Inductive Level := DEBUG | INFO | WARNING | ERROR.

(** An argument handed to a formatting call. *)
Inductive Arg :=
| AString (s : string)
| AUint (n : N)
| AHex (b : bytes)
| AError (e : error).

Inductive Event :=
(* logger.Debugf / Infof / Warningf / Errorf with its format and arguments *)
| EvLog (lvl : Level) (format : string) (args : list Arg)
(* the flag package reporting a parse error on standard error *)
| EvStderr (format : string) (args : list Arg)
(* fsck.ledger.GetBlockByNumber(n) is called *)
| EvRead (n : N)
(* prevHash is assigned *)
| EvSetPrevHash (h : bytes)
(* bytes.Equal(prevHash, block.Header.PreviousHash) is evaluated in the
   iteration blockIndex *)
| EvCompare (blockIndex : N) (prevHash claimed : bytes)
(* the iteration blockIndex starts checking the signature of the block it
   read: proto.Marshal followed by mcs.VerifyBlock *)
| EvVerify (blockIndex : N) (block : Block).

Inductive Outcome (A : Type) :=
| Returned (a : A)
| Exited (code : Z)      (* os.Exit(code) *)
| Panicked               (* an unrecovered panic *)
| OutOfFuel.             (* the model ran out of steps; never a real outcome *)
Arguments Returned {A} a.
Arguments Exited {A} code.
Arguments Panicked {A}.
Arguments OutOfFuel {A}.

(** A computation: the events it emitted, in order, and how it ended. *)
Definition Proc (A : Type) : Type := list Event * Outcome A.

Definition ret {A} (a : A) : Proc A := ([], Returned a).

Definition bind {A B} (m : Proc A) (f : A → Proc B) : Proc B :=
  match m with
  | (t, Returned a) => let '(t', o) := f a in (t ++ t', o)
  | (t, Exited c) => (t, Exited c)
  | (t, Panicked) => (t, Panicked)
  | (t, OutOfFuel) => (t, OutOfFuel)
  end.

Notation "'let!' x ':=' m 'in' k" := (bind m (fun x => k))
  (at level 10, x pattern, m at level 100, k at level 200, only parsing).
Notation "m ;; k" := (bind m (fun _ => k))
  (at level 100, right associativity, only parsing).

Definition emit (e : Event) : Proc unit := ([e], Returned tt).
Definition os_Exit {A} (code : Z) : Proc A := ([], Exited code).
Definition panic {A} : Proc A := ([], Panicked).
Definition out_of_fuel {A} : Proc A := ([], OutOfFuel).

Definition Debugf (format : string) (args : list Arg) : Proc unit :=
  emit (EvLog DEBUG format args).
Definition Infof (format : string) (args : list Arg) : Proc unit :=
  emit (EvLog INFO format args).
Definition Warningf (format : string) (args : list Arg) : Proc unit :=
  emit (EvLog WARNING format args).
Definition Errorf (format : string) (args : list Arg) : Proc unit :=
  emit (EvLog ERROR format args).

Definition trace {A} (p : Proc A) : list Event := fst p.
Definition outcome {A} (p : Proc A) : Outcome A := snd p.

(** The exit status the operating system reports: the low eight bits of the
    code given to [os.Exit], 0 when [main] returns, 2 after a panic. *)
Definition exit_status {A} (o : Outcome A) : option Z :=
  match o with
  | Returned _ => Some 0%Z
  | Exited c => Some (c mod 256)%Z
  | Panicked => Some 2%Z
  | OutOfFuel => None
  end.

(** ** Command ledgerfsck: the code *)

(** [Initialize] also reads FABRIC_LOGGING_SPEC and FABRIC_LOGGING_FORMAT and
    configures the logging backend and viper's environment lookup; of all
    that only the result of [common.InitConfig] decides how it returns.
    With FABRIC_LOGGING_SPEC unset the logging spec is
    "ledgerfsck=debug:fatal", under which the backend writes the debug lines
    of the tool; an [EvLog] event is the call of the logger, whatever the
    backend then does with the line. *)
Definition Initialize (env : Env) (fsck : ledgerFsck) : Proc (option error) :=
  match common_InitConfig env "core" with
  | Some err =>
      Errorf "failed to initialize configuration, because of %s" [AError err] ;;
      ret (Some err)
  | None => ret None
  end.

(** *** Package flag, as [ReadConfiguration] uses it

    The four [flag.StringVar] calls register string flags on the default
    flag set, whose error handling is [ExitOnError]: a parse error is
    reported on standard error and ends the process with status 2 (so does
    a request for help with the Go 1.12 toolchain the pipeline pins).
    [formal] is the table of registered names; [flag_Parse] is
    [FlagSet.Parse] over [FlagSet.parseOne] restricted to string flags. *)

Inductive FlagVar := FChannelName | FMspPath | FMspID | FMspType.

Definition formal : gmap string FlagVar :=
  list_to_map [("channelName", FChannelName); ("mspPath", FMspPath);
               ("mspID", FMspID); ("mspType", FMspType)].

(** [flag.Value.Set] of a string flag bound to a field of [fsck]. *)
Definition flag_Set (f : FlagVar) (v : string) (fsck : ledgerFsck) : ledgerFsck :=
  match f with
  | FChannelName =>
      {| channelName := v; mspConfigPath := mspConfigPath fsck;
         mspID := mspID fsck; mspType := mspType fsck;
         ledger := ledger fsck; bundle := bundle fsck |}
  | FMspPath =>
      {| channelName := channelName fsck; mspConfigPath := v;
         mspID := mspID fsck; mspType := mspType fsck;
         ledger := ledger fsck; bundle := bundle fsck |}
  | FMspID =>
      {| channelName := channelName fsck; mspConfigPath := mspConfigPath fsck;
         mspID := v; mspType := mspType fsck;
         ledger := ledger fsck; bundle := bundle fsck |}
  | FMspType =>
      {| channelName := channelName fsck; mspConfigPath := mspConfigPath fsck;
         mspID := mspID fsck; mspType := v;
         ledger := ledger fsck; bundle := bundle fsck |}
  end.

Inductive FlagError :=
| ErrHelp
| ErrBadSyntax (s : string)
| ErrNotDefined (name : string)
| ErrNeedsArgument (name : string).

(** The scan [for i := 1; i < len(name); i++] for the first '=' that is not
    the first character: [name[0:i]] and [name[i+1:]]. *)
Fixpoint split_at_equals (s : string) : string * option string :=
  match s with
  | EmptyString => (EmptyString, None)
  | String c s' =>
      if Ascii.eqb c "="%char then (EmptyString, Some s')
      else let '(n, v) := split_at_equals s' in (String c n, v)
  end.

Definition split_name (name : string) : string * option string :=
  match name with
  | EmptyString => (EmptyString, None)
  | String c rest => let '(n, v) := split_at_equals rest in (String c n, v)
  end.

(** The flag name of an argument [s] that starts a flag: [s] without its one
    or two leading minus signs.  [None] when [s] is not a flag ([len(s) < 2],
    no leading '-', or exactly "--"), which ends flag parsing. *)
Definition flag_body (s : string) : option string :=
  match s with
  | String c0 (String c1 rest) =>
      if negb (Ascii.eqb c0 "-"%char) then None
      else if Ascii.eqb c1 "-"%char then
        match rest with
        | EmptyString => None
        | _ => Some rest
        end
      else Some (String c1 rest)
  | _ => None
  end.

Definition bad_syntax (name : string) : bool :=
  match name with
  | EmptyString => true
  | String c _ => Ascii.eqb c "-"%char || Ascii.eqb c "="%char
  end.

Fixpoint flag_Parse (args : list string) (fsck : ledgerFsck)
  : FlagError + ledgerFsck :=
  match args with
  | [] => inr fsck
  | s :: rest =>
      match flag_body s with
      | None => inr fsck
      | Some name =>
          if bad_syntax name then inl (ErrBadSyntax s)
          else
            let '(name, value) := split_name name in
            match formal !! name with
            | None =>
                if bool_decide (name = "help" ∨ name = "h") then inl ErrHelp
                else inl (ErrNotDefined name)
            | Some flag =>
                match value with
                | Some v => flag_Parse rest (flag_Set flag v fsck)
                | None =>
                    (* the value is the next argument *)
                    match rest with
                    | v :: rest' => flag_Parse rest' (flag_Set flag v fsck)
                    | [] => inl (ErrNeedsArgument name)
                    end
                end
            end
      end
  end.

Definition report (e : FlagError) : Proc unit :=
  match e with
  | ErrHelp => emit (EvStderr "Usage of %s:" [])
  | ErrBadSyntax s => emit (EvStderr "bad flag syntax: %s" [AString s])
  | ErrNotDefined name =>
      emit (EvStderr "flag provided but not defined: -%s" [AString name])
  | ErrNeedsArgument name =>
      emit (EvStderr "flag needs an argument: -%s" [AString name])
  end.

(** ReadConfiguration read configuration parameters.  [args] is os.Args[1:]. *)
Definition ReadConfiguration (args : list string) (fsck : ledgerFsck)
  : Proc (ledgerFsck * option error) :=
  (* flag.StringVar stores each default in its variable *)
  let fsck := flag_Set FChannelName "testChannel" fsck in
  let fsck := flag_Set FMspPath "" fsck in
  let fsck := flag_Set FMspID "" fsck in
  let fsck := flag_Set FMspType "bccsp" fsck in
  match flag_Parse args fsck with
  | inl e => report e ;; os_Exit 2
  | inr fsck =>
      if bool_decide (mspConfigPath fsck = "") then
        let errMsg := "MSP folder not configured" in
        Errorf errMsg [] ;;
        ret (fsck, Some errMsg)
      else if bool_decide (mspID fsck = "") then
        let errMsg := "MSPID was not provided" in
        Errorf errMsg [] ;;
        ret (fsck, Some errMsg)
      else
        Debugf "channel name = %s" [AString (channelName fsck)] ;;
        Debugf "MSP folder path = %s" [AString (mspConfigPath fsck)] ;;
        Debugf "MSPID = %s" [AString (mspID fsck)] ;;
        Debugf "MSP type = %s" [AString (mspType fsck)] ;;
        ret (fsck, None)
  end.

Definition InitCrypto (env : Env) (fsck : ledgerFsck) : Proc (option error) :=
  match common_InitCrypto env (mspConfigPath fsck) (mspID fsck) (mspType fsck) with
  | Some err =>
      Errorf "failed to initialize MSP related configuration, failure %s"
             [AError err] ;;
      ret (Some err)
  | None => ret None
  end.

Definition set_ledger (l : PeerLedger) (fsck : ledgerFsck) : ledgerFsck :=
  {| channelName := channelName fsck; mspConfigPath := mspConfigPath fsck;
     mspID := mspID fsck; mspType := mspType fsck;
     ledger := Some l; bundle := bundle fsck |}.

Definition set_bundle (b : Bundle) (fsck : ledgerFsck) : ledgerFsck :=
  {| channelName := channelName fsck; mspConfigPath := mspConfigPath fsck;
     mspID := mspID fsck; mspType := mspType fsck;
     ledger := ledger fsck; bundle := Some b |}.

(** [createSelfSignedData] panics when the local signing identity is not
    available; the remaining set-up of [OpenLedger] builds values that only
    [ledgermgmt] looks at. *)
Definition OpenLedger (env : Env) (fsck : ledgerFsck)
  : Proc (ledgerFsck * option error) :=
  match LocalSigningIdentity env with
  | None => panic
  | Some _ =>
      match opsSystem_Start env with
      | Some err =>
          ret (fsck, Some ("failed to initialize operations subystems: " +:+ err))
      | None =>
          match ledgermgmt_GetLedgerIDs env with
          | Err err =>
              let errMsg := "failed to read ledger, because of " +:+ err in
              Errorf errMsg [] ;;
              ret (fsck, Some errMsg)
          | OK ledgerIds =>
              (* Check whenever channel name has corresponding ledger *)
              let found :=
                existsb (fun name => String.eqb name (channelName fsck)) ledgerIds in
              if negb found then
                let errMsg :=
                  "there is no ledger corresponding to the provided channel name "
                  +:+ channelName fsck +:+ ". Exiting..." in
                Errorf errMsg [] ;;
                ret (fsck, Some errMsg)
              else
                match ledgermgmt_OpenLedger env (channelName fsck) with
                | Err err =>
                    let errMsg :=
                      "failed to open ledger " +:+ channelName fsck
                      +:+ ", because of the " +:+ err in
                    Errorf errMsg [] ;;
                    ret (fsck, Some errMsg)
                | OK l => ret (set_ledger l fsck, None)
                end
          end
      end
  end.

(** getCurrConfigBlockFromLedger read latest configuratoin block from the ledger *)
Definition getCurrConfigBlockFromLedger (env : Env) (l : PeerLedger)
  : result Block :=
  (* get last block.  Last block number is Height-1 *)
  match GetBlockchainInfo l with
  | Err err => Err err
  | OK blockchainInfo =>
      match GetBlockByNumber l (uint64_dec (Height blockchainInfo)) with
      | Err err => Err err
      | OK lastBlock =>
          (* get most recent config block location from last block metadata *)
          match GetLastConfigIndexFromBlock env lastBlock with
          | Err err => Err err
          | OK configBlockIndex =>
              (* get most recent config block *)
              match GetBlockByNumber l configBlockIndex with
              | Err err => Err err
              | OK configBlock => OK configBlock
              end
          end
      end
  end.

(** The branch for [conf == nil] is never taken: [conf] is a fresh
    [&pb.Config{}].  A failing [NewQueryExecutor] leaves [qe] nil, and
    [defer qe.Done()], which comes before the error check, panics when it
    evaluates the method on the nil interface. *)
Definition GetLatestChannelConfigBundle (env : Env) (fsck : ledgerFsck)
  : Proc (ledgerFsck * option error) :=
  match ledger fsck with
  | None => panic
  | Some l =>
      match getCurrConfigBlockFromLedger env l with
      | Err err =>
          Warningf "Failed to find config block on ledger %s(%s)"
                   [AString (channelName fsck); AError err] ;;
          ret (fsck, Some err)
      | OK cb =>
          match NewQueryExecutor l with
          | Err err => panic
          | OK qe =>
              Debugf "reading configuration from state DB" [] ;;
              match GetState qe "" "resourcesconfigtx.CHANNEL_CONFIG_KEY" with
              | Err err =>
                  Errorf "failed to read channel config, error %s" [AError err] ;;
                  ret (fsck, Some err)
              | OK confBytes =>
                  match proto_Unmarshal env confBytes with
                  | Err err =>
                      Errorf "could not read configuration, due to %s" [AError err] ;;
                      ret (fsck, Some err)
                  | OK conf =>
                      Debugf "initialize channel config bundle" [] ;;
                      match channelconfig_NewBundle env (channelName fsck) conf with
                      | Err err => ret (fsck, Some err)
                      | OK b =>
                          let fsck := set_bundle b fsck in
                          if capabilitiesSupported env b
                          then ret (fsck, None)
                          else panic
                      end
                  end
              end
          end
      end
  end.

(** The loop of [Verify]:
    [for blockIndex := uint64(1); blockIndex < blockchainInfo.Height; blockIndex++].
    [fuel] bounds the number of iterations of the model. *)
Fixpoint Verify_loop (env : Env) (fsck : ledgerFsck) (l : PeerLedger) (mcs : MCS)
    (height : N) (fuel : nat) (blockIndex : N) (prevHash : bytes) : Proc unit :=
  if negb (blockIndex <? height)%N then ret tt
  else
    match fuel with
    | O => out_of_fuel
    | S fuel' =>
        emit (EvRead blockIndex) ;;
        match GetBlockByNumber l blockIndex with
        | Err err =>
            Debugf "failed to read block number %d from ledger, with error"
                   [AUint blockIndex; AError err] ;;
            Infof "FAIL" [] ;;
            os_Exit (-1)
        | OK block =>
            emit (EvCompare blockIndex prevHash (PreviousHash (Header block))) ;;
            if negb (bytes_Equal prevHash (PreviousHash (Header block))) then
              Debugf ("block number [%d]: hash comparison has failed, previous block hash %x doesn't"
                      +:+ " equal to hash claimed within block header %x")
                     [AUint blockIndex; AHex prevHash;
                      AHex (PreviousHash (Header block))] ;;
              Infof "FAIL" [] ;;
              os_Exit (-1)
            else
              Debugf "block number [%d]: previous hash matched" [AUint blockIndex] ;;
              emit (EvVerify blockIndex block) ;;
              match proto_Marshal env block with
              | Err err =>
                  Debugf "failed marshaling block, due to" [AError err] ;;
                  Infof "FAIL" [] ;;
                  os_Exit (-1)
              | OK signedBlock =>
                  match mcs (channelName fsck) (Number (Header block)) signedBlock with
                  | Some err =>
                      Debugf "failed to verify block with sequence number %d. %s"
                             [AUint blockIndex; AError err] ;;
                      Infof "FAIL" [] ;;
                      os_Exit (-1)
                  | None =>
                      Debugf "Block [seq = %d], hash = [%x], previous hash = [%x], VERIFICATION PASSED"
                             [AUint blockIndex;
                              AHex (BlockHeaderHash env (Header block));
                              AHex (PreviousHash (Header block))] ;;
                      let prevHash := BlockHeaderHash env (Header block) in
                      emit (EvSetPrevHash prevHash) ;;
                      Verify_loop env fsck l mcs height fuel'
                                  (uint64_inc blockIndex) prevHash
                  end
              end
        end
    end.

Definition Verify (env : Env) (fsck : ledgerFsck) : Proc unit :=
  match ledger fsck with
  | None => panic
  | Some l =>
      match GetBlockchainInfo l with
      | Err err =>
          Debugf ("could not obtain blockchain information "
                  +:+ "channel name %s, due to %s")
                 [AString (channelName fsck); AError err] ;;
          Infof "FAIL" [] ;;
          os_Exit (-1)
      | OK blockchainInfo =>
          Debugf "ledger height of channel %s, is %d\n"
                 [AString (channelName fsck); AUint (Height blockchainInfo)] ;;
          match LocalSigningIdentity env with
          | None => panic
          | Some signer =>
              let mcs := gossip_NewMCS env (bundle fsck) signer in
              emit (EvRead 0) ;;
              match GetBlockByNumber l 0 with
              | Err err =>
                  Debugf "failed to read genesis block number, with error"
                         [AError err] ;;
                  Infof "FAIL" [] ;;
                  os_Exit (-1)
              | OK block =>
                  (* Get hash of genesis block *)
                  let prevHash := BlockHeaderHash env (Header block) in
                  emit (EvSetPrevHash prevHash) ;;
                  (* complete full scan and check over ledger blocks *)
                  Verify_loop env fsck l mcs (Height blockchainInfo)
                              (N.to_nat (Height blockchainInfo)) 1 prevHash ;;
                  Infof "PASS" []
              end
          end
      end
  end.

Definition new_ledgerFsck : ledgerFsck :=
  {| channelName := ""; mspConfigPath := ""; mspID := ""; mspType := "";
     ledger := None; bundle := None |}.

Definition main (env : Env) (args : list string) : Proc unit :=
  let fsck := new_ledgerFsck in
  (* Initialize configuration *)
  let! err := Initialize env fsck in
  if bool_decide (err ≠ None) then os_Exit (-1) else
  (* Read configuration parameters *)
  let! (fsck, err) := ReadConfiguration args fsck in
  if bool_decide (err ≠ None) then os_Exit (-1) else
  (* Init crypto & MSP *)
  let! err := InitCrypto env fsck in
  if bool_decide (err ≠ None) then os_Exit (-1) else
  (* OpenLedger *)
  let! (fsck, err) := OpenLedger env fsck in
  if bool_decide (err ≠ None) then os_Exit (-1) else
  (* GetLatestChannelConfigBundle *)
  let! (fsck, err) := GetLatestChannelConfigBundle env fsck in
  if bool_decide (err ≠ None) then os_Exit (-1) else
  Verify env fsck.

End ledgerfsck.

(** ** Package node (peer node start): addresses of the chaincode and admin
    listeners

    The functions use package [net] through [SplitHostPort], [ParseIP] and
    [IP.IsUnspecified]; these are taken as given.  They log through the
    logger of their package; the lines are recorded as the events of the
    audit tool are. *)

Module node.
Import ledgerfsck.

Record Net := {
  (* net.SplitHostPort: host and port of "host:port" *)
  SplitHostPort : string → result (string * string);
  (* net.ParseIP: None for nil, when the text is no IP address *)
  ParseIP : string → option bytes;
  (* IP.IsUnspecified: the address is 0.0.0.0 or :: *)
  IsUnspecified : bytes → bool;
}.

Definition chaincodeAddrKey := "peer.chaincodeAddress".
Definition chaincodeListenAddrKey := "peer.chaincodeListenAddress".
Definition defaultChaincodePort : N := 7052.

Section Addresses.
Context {V : Type} `{Viper V}.
Variable net : Net.

(** [ip := net.ParseIP(s); ip != nil && ip.IsUnspecified()] *)
Definition parses_unspecified (s : string) : bool :=
  match ParseIP net s with
  | Some ip => IsUnspecified net ip
  | None => false
  end.

(** The IP a log line prints after the test above succeeded. *)
Definition ip_arg (s : string) : Arg :=
  match ParseIP net s with
  | Some ip => AHex ip
  | None => AHex []
  end.

(** computeChaincodeEndpoint will utilize chaincode address, chaincode listen
    address (these two are from viper) and peer address to compute chaincode
    endpoint.  There could be following cases of computing chaincode endpoint:
    Case A: if chaincodeAddrKey is set, use it if not "0.0.0.0" (or "::")
    Case B: else if chaincodeListenAddrKey is set and not "0.0.0.0" or ("::"), use it
    Case C: else use peer address if not "0.0.0.0" (or "::")
    Case D: else return error *)
Definition computeChaincodeEndpoint (cfg : V) (peerHostname : string)
  : Proc (result string) :=
  Infof "Entering computeChaincodeEndpoint with peerHostname: %s"
        [AString peerHostname] ;;
  let ccEndpoint := viper_GetString cfg chaincodeAddrKey in
  let! r :=
    (if bool_decide (ccEndpoint = "") then
       (* the chaincodeAddrKey is not set, try to get the address from listener
          (may finally use the peer address) *)
       let ccEndpoint := viper_GetString cfg chaincodeListenAddrKey in
       if bool_decide (ccEndpoint = "") then
         (* Case C: chaincodeListenAddrKey is not set, use peer address *)
         if parses_unspecified peerHostname then
           (* Case D: all we have is "0.0.0.0" or "::" which chaincode cannot connect to *)
           Errorf "ChaincodeAddress and chaincodeListenAddress are nil and peerIP is %s"
                  [ip_arg peerHostname] ;;
           ret (Err "invalid endpoint for chaincode to connect")
         else
           (* use peerAddress:defaultChaincodePort *)
           ret (OK (peerHostname +:+ ":" +:+ pretty defaultChaincodePort))
       else
         (* Case B: chaincodeListenAddrKey is set *)
         match SplitHostPort net ccEndpoint with
         | Err err =>
             Errorf "ChaincodeAddress is nil and fail to split chaincodeListenAddress: %s"
                    [AError err] ;;
             ret (Err err)
         | OK (host, port) =>
             if parses_unspecified host then
               (* Case C: if "0.0.0.0" or "::", we have to use peer address with the listen port *)
               if parses_unspecified peerHostname then
                 (* Case D: all we have is "0.0.0.0" or "::" which chaincode cannot connect to *)
                 Errorf "ChaincodeAddress is nil while both chaincodeListenAddressIP and peerIP are 0.0.0.0" [] ;;
                 ret (Err "invalid endpoint for chaincode to connect")
               else ret (OK (peerHostname +:+ ":" +:+ port))
             else ret (OK ccEndpoint)
         end
     else
       (* Case A: the chaincodeAddrKey is set *)
       match SplitHostPort net ccEndpoint with
       | Err err =>
           Errorf "Fail to split chaincodeAddress: %s" [AError err] ;;
           ret (Err err)
       | OK (host, _) =>
           if parses_unspecified host then
             Errorf "ChaincodeAddress' IP cannot be %s in non-dev mode"
                    [ip_arg host] ;;
             ret (Err "invalid endpoint for chaincode to connect")
           else ret (OK ccEndpoint)
       end) in
  match r with
  | Err err => ret (Err err)
  | OK ccEndpoint =>
      Infof "Exit with ccEndpoint: %s" [AString ccEndpoint] ;;
      ret (OK ccEndpoint)
  end.


End Addresses.
End node.

(** ** The audit procedure as the specification words it

    "1. Read block 0; compute prevHash = headerHash(block0).
     2. For n = 1 … height − 1, read block n, assert
        block.previousHash == prevHash, verify the block's signature using
        the channel's current policy, update prevHash.
     3. On any mismatch ... terminate with a non-success status."

    [ChainVerifier] lists the steps this procedure takes on a ledger, as the
    events defined above, and tells whether it ran to the end. *)

Module ChainVerifier.
Import ledgerfsck.
Section Procedure.
Variable env : Env.
Variable chain : string.
Variable l : PeerLedger.
Variable mcs : MCS.

(** The block numbers [from], [from + 1], ... ([len] of them). *)
Fixpoint numbers (from : N) (len : nat) : list N :=
  match len with
  | O => []
  | S len' => from :: numbers (N.succ from) len'
  end.

(** The signature of a block verifies under the channel's policy. *)
Definition signature_ok (block : Block) : bool :=
  match proto_Marshal env block with
  | Err _ => false
  | OK signedBlock =>
      match mcs chain (Number (Header block)) signedBlock with
      | None => true
      | Some _ => false
      end
  end.

Fixpoint sweep (ns : list N) (prevHash : bytes) : list Event * bool :=
  match ns with
  | [] => ([], true)
  | n :: ns' =>
      match GetBlockByNumber l n with
      | Err _ => ([EvRead n], false)
      | OK block =>
          let claimed := PreviousHash (Header block) in
          if bool_decide (claimed = prevHash) then
            if signature_ok block then
              let prevHash' := BlockHeaderHash env (Header block) in
              let '(t, ok) := sweep ns' prevHash' in
              (EvRead n :: EvCompare n prevHash claimed :: EvVerify n block
                 :: EvSetPrevHash prevHash' :: t, ok)
            else
              ([EvRead n; EvCompare n prevHash claimed; EvVerify n block], false)
          else
            ([EvRead n; EvCompare n prevHash claimed], false)
      end
  end.

Definition run (height : N) : list Event * bool :=
  match GetBlockByNumber l 0 with
  | Err _ => ([EvRead 0%N], false)
  | OK block0 =>
      let prevHash := BlockHeaderHash env (Header block0) in
      let '(t, ok) := sweep (numbers 1 (N.to_nat (height - 1))) prevHash in
      (EvRead 0%N :: EvSetPrevHash prevHash :: t, ok)
  end.

End Procedure.
End ChainVerifier.

(** ** Notions used to state the properties of the audit tool *)

Module Audit.
Import ledgerfsck.

(** The steps of a run that touch the ledger or its blocks: everything but
    the log lines. *)
Definition is_step (e : Event) : bool :=
  match e with
  | EvLog _ _ _ | EvStderr _ _ => false
  | _ => true
  end.

Definition steps (t : list Event) : list Event := List.filter is_step t.

(** The part of [main] that comes before the call of [Verify]. *)
Definition setup (env : Env) (args : list string) : Proc ledgerFsck :=
  let fsck := new_ledgerFsck in
  let! err := Initialize env fsck in
  if bool_decide (err ≠ None) then os_Exit (-1) else
  let! (fsck, err) := ReadConfiguration args fsck in
  if bool_decide (err ≠ None) then os_Exit (-1) else
  let! err := InitCrypto env fsck in
  if bool_decide (err ≠ None) then os_Exit (-1) else
  let! (fsck, err) := OpenLedger env fsck in
  if bool_decide (err ≠ None) then os_Exit (-1) else
  let! (fsck, err) := GetLatestChannelConfigBundle env fsck in
  if bool_decide (err ≠ None) then os_Exit (-1) else
  ret fsck.

(** A flag written with one or with two minus signs. *)
Definition dashed (double : bool) (name : string) : string :=
  (if double then "--" else "-") +:+ name.

Section Ledger.
Variable env : Env.
Variable fsck : ledgerFsck.
Variable l : PeerLedger.
Variable mcs : MCS.

(** The value [prevHash] holds when the iteration for block [n] begins,
    provided the run gets there: the header hash of the block read for
    [n - 1]. *)
Definition prevHash_at (n : N) : bytes :=
  match GetBlockByNumber l (N.pred n) with
  | OK b => BlockHeaderHash env (Header b)
  | Err _ => []
  end.

(** Block [n] can be read, its previous-hash field matches, and its
    signature verifies. *)
Definition passes (n : N) : bool :=
  match GetBlockByNumber l n with
  | OK b =>
      bytes_Equal (prevHash_at n) (PreviousHash (Header b))
      && ChainVerifier.signature_ok env (channelName fsck) mcs b
  | Err _ => false
  end.

(** The events of an iteration of the loop of [Verify] in which block [n]
    passes. *)
Definition passing_iteration (n : N) : list Event :=
  match GetBlockByNumber l n with
  | OK b =>
      [EvRead n;
       EvCompare n (prevHash_at n) (PreviousHash (Header b));
       EvLog DEBUG "block number [%d]: previous hash matched" [AUint n];
       EvVerify n b;
       EvLog DEBUG "Block [seq = %d], hash = [%x], previous hash = [%x], VERIFICATION PASSED"
             [AUint n; AHex (BlockHeaderHash env (Header b));
              AHex (PreviousHash (Header b))];
       EvSetPrevHash (BlockHeaderHash env (Header b))]
  | Err _ => []
  end.

(** The block number an event is about, if any. *)
Definition block_of (e : Event) : option N :=
  match e with
  | EvRead n | EvCompare n _ _ | EvVerify n _ => Some n
  | _ => None
  end.

End Ledger.
End Audit.

(** ** Further notions used to state properties *)

Module Extra.
Import ledgerfsck.

(** The formats of the lines logged at level INFO, in order. *)
Definition info_lines (t : list Event) : list string :=
  flat_map (fun e => match e with EvLog INFO f _ => [f] | _ => [] end) t.

(** The block numbers asked of the ledger, in order. *)
Definition reads (t : list Event) : list N :=
  flat_map (fun e => match e with EvRead n => [n] | _ => [] end) t.

(** The name under which [ReadConfiguration] registers a flag. *)
Definition flag_name (f : FlagVar) : string :=
  match f with
  | FChannelName => "channelName"
  | FMspPath => "mspPath"
  | FMspID => "mspID"
  | FMspType => "mspType"
  end.

(** A command line of flags each followed by its value. *)
Definition command_line (double : bool) (ps : list (FlagVar * string))
  : list string :=
  flat_map (fun p => [Audit.dashed double (flag_name p.1); p.2]) ps.

(** The flag variables after [ReadConfiguration] stored the defaults. *)
Definition with_defaults (fsck : ledgerFsck) : ledgerFsck :=
  flag_Set FMspType "bccsp"
    (flag_Set FMspID "" (flag_Set FMspPath "" (flag_Set FChannelName "testChannel" fsck))).

(** Storing values in flag variables one after the other. *)
Definition set_all (ps : list (FlagVar * string)) (fsck : ledgerFsck)
  : ledgerFsck :=
  fold_left (fun s p => flag_Set p.1 p.2 s) ps fsck.

(** Every ledger the environment can open reports a height that is a
    [uint64]. *)
Definition uint64_heights (env : Env) : Prop :=
  ∀ c l info,
    ledgermgmt_OpenLedger env c = OK l →
    GetBlockchainInfo l = OK info →
    (Height info < uint64_modulus)%N.

(** The names of the directories below the ledger root. *)
Definition ledger_directories : list string :=
  [ledgerconfig.confLedgerProvider; ledgerconfig.confStateleveldb;
   ledgerconfig.confHistoryLeveldb; ledgerconfig.confChains;
   ledgerconfig.confPvtdataStore; ledgerconfig.confBookkeeper;
   ledgerconfig.confConfigHistory; ledgerconfig.couchdbRedoLogPath].

(** A Go [int] on a 64-bit platform. *)
Definition is_int (z : Z) : Prop := (- 2 ^ 63 ≤ z < 2 ^ 63)%Z.

(** The line [Verify] logs when the signature check of block [b], read in
    iteration [n], does not go through. *)
Definition signature_line (env : Env) (fsck : ledgerFsck) (mcs : MCS)
    (n : N) (b : Block) : option Event :=
  match proto_Marshal env b with
  | Err err => Some (EvLog DEBUG "failed marshaling block, due to" [AError err])
  | OK signedBlock =>
      match mcs (channelName fsck) (Number (Header b)) signedBlock with
      | Some err =>
          Some (EvLog DEBUG "failed to verify block with sequence number %d. %s"
                      [AUint n; AError err])
      | None => None
      end
  end.

(** A computation that logs nothing at level INFO and ends by returning, by
    a panic, or by os.Exit with 2 or -1. *)
Definition quiet {A} (p : Proc A) : Prop :=
  info_lines (trace p) = []
  ∧ match outcome p with
    | Returned _ | Panicked => True
    | Exited c => c = 2%Z ∨ c = (-1)%Z
    | OutOfFuel => False
    end.

End Extra.

(** ** Sample configurations, ledgers and command lines *)

Module Samples.
Import ledgerfsck.

(** A lexical stand-in for path/filepath.Join. *)
Definition join (a b : string) : string := a +:+ "/" +:+ b.

Definition cfg_unset : gmap string value := ∅.

Definition cfg_archiver : gmap string value :=
  list_to_map [("peer.archiver.enabled", VBool true);
               ("peer.archiving.enabled", VBool true);
               ("peer.archiver.each", VInt 5);
               ("peer.archiver.keep", VInt 2);
               ("ledger.maxBlockfileSize", VInt 1024);
               ("ledger.blockArchiver.url", VString "bank:22");
               ("ledger.blockArchiver.dir", VString "/archive")].

Definition cfg_client : gmap string value :=
  list_to_map [("peer.archiver.enabled", VBool false);
               ("peer.archiving.enabled", VBool true)].

(** A chain whose header hash of block [n] is [n + 1] bytes 01, so that the
    previous-hash field of a well-linked block [n] is [n] bytes 01. *)
Definition hash (h : BlockHeader) : bytes := repeat x01 (S (N.to_nat (Number h))).

Definition block (n : N) : Block :=
  {| Header := {| Number := n;
                  PreviousHash := repeat x01 (N.to_nat n);
                  DataHash := [] |};
     Data := []; Metadata := [] |}.

(** Block [n] with a previous-hash field that matches no header hash. *)
Definition forged (n : N) : Block :=
  {| Header := {| Number := n; PreviousHash := [x00]; DataHash := [] |};
     Data := []; Metadata := [] |}.

Definition qe : QueryExecutor := {| GetState := fun _ _ => OK [x0a] |}.

Definition info_of (h : N) : BlockchainInfo :=
  {| Height := h; CurrentBlockHash := []; PreviousBlockHash := [] |}.

Definition mk_ledger (h : N) (read : N → result Block) : PeerLedger :=
  {| GetBlockchainInfo := OK (info_of h);
     GetBlockByNumber := read;
     NewQueryExecutor := OK qe |}.

(** A well-linked ledger of height [h]. *)
Definition good_ledger (h : N) : PeerLedger :=
  mk_ledger h (fun n => if (n <? h)%N then OK (block n) else Err "not found").

(** Height 4, block 2 carries a wrong previous hash. *)
Definition broken_ledger : PeerLedger :=
  mk_ledger 4 (fun n => if (n =? 2)%N then OK (forged 2)
                        else if (n <? 4)%N then OK (block n) else Err "not found").

(** Height 4, the file holding block 2 cannot be fetched from the archive. *)
Definition archived_ledger : PeerLedger :=
  mk_ledger 4 (fun n => if (n =? 2)%N then Err "archive unavailable"
                        else if (n <? 4)%N then OK (block n) else Err "not found").

Definition env_with (l : PeerLedger) : Env :=
  {| BlockHeaderHash := hash;
     proto_Marshal := fun b => OK (PreviousHash (Header b));
     proto_Unmarshal := fun raw => OK (MkConfig raw);
     LocalSigningIdentity := Some (MkSigner [x01]);
     gossip_NewMCS := fun _ _ => fun _ _ _ => None;
     common_InitConfig := fun _ => None;
     common_InitCrypto := fun _ _ _ => None;
     opsSystem_Start := None;
     ledgermgmt_GetLedgerIDs := OK ["mychannel"];
     ledgermgmt_OpenLedger := fun _ => OK l;
     GetLastConfigIndexFromBlock := fun _ => OK 0%N;
     channelconfig_NewBundle := fun c conf => OK (MkBundle c conf);
     capabilitiesSupported := fun _ => true |}.

Definition fsck_on (l : PeerLedger) : ledgerFsck :=
  {| channelName := "mychannel"; mspConfigPath := "/msp"; mspID := "Org1MSP";
     mspType := "bccsp"; ledger := Some l;
     bundle := Some (MkBundle "mychannel" (MkConfig [x0a])) |}.

Definition mcs_ok : MCS := fun _ _ _ => None.

Definition env1 : Env := env_with (good_ledger 1).
Definition fsck1 : ledgerFsck := fsck_on (good_ledger 1).
Definition env3 : Env := env_with (good_ledger 3).
Definition fsck3 : ledgerFsck := fsck_on (good_ledger 3).
Definition env_broken : Env := env_with broken_ledger.
Definition fsck_broken : ledgerFsck := fsck_on broken_ledger.
Definition env_archived : Env := env_with archived_ledger.
Definition fsck_archived : ledgerFsck := fsck_on archived_ledger.

(** The command line of the specification, and the one the flags of
    [ReadConfiguration] call for. *)
Definition args_spec : list string :=
  ["--channel"; "mychannel"; "--msp-path"; "/msp"; "--msp-id"; "Org1MSP"].

Definition args_code : list string :=
  ["--channelName"; "mychannel"; "--mspPath"; "/msp"; "--mspID"; "Org1MSP"].

(** The message crypto service rejects the block whose header carries
    number 2. *)
Definition env_bad_signature : Env :=
  {| BlockHeaderHash := hash;
     proto_Marshal := fun b => OK (PreviousHash (Header b));
     proto_Unmarshal := fun raw => OK (MkConfig raw);
     LocalSigningIdentity := Some (MkSigner [x01]);
     gossip_NewMCS := fun _ _ => fun _ seq _ =>
       if (seq =? 2)%N then Some "bad signature" else None;
     common_InitConfig := fun _ => None;
     common_InitCrypto := fun _ _ _ => None;
     opsSystem_Start := None;
     ledgermgmt_GetLedgerIDs := OK ["mychannel"];
     ledgermgmt_OpenLedger := fun _ => OK (good_ledger 4);
     GetLastConfigIndexFromBlock := fun _ => OK 0%N;
     channelconfig_NewBundle := fun c conf => OK (MkBundle c conf);
     capabilitiesSupported := fun _ => true |}.

Definition fsck4 : ledgerFsck := fsck_on (good_ledger 4).

Definition cfg_pvtdata : gmap string value :=
  list_to_map [("ledger.pvtdataStore.purgeInterval", VInt 25);
               ("ledger.pvtdataStore.collElgProcMaxDbBatchSize", VInt (-3))].

Definition cfg_chaincode_address_only : gmap string value :=
  list_to_map [("peer.chaincodeAddress", VString "cc.example.com:7052")].

Definition args_positional : list string :=
  ["mychannel"; "-mspPath"; "/msp"; "-mspID"; "Org1MSP"].

(** Addresses: "host:port" is split at its last colon; the unspecified
    addresses are written 0.0.0.0 and ::. *)
Fixpoint split_last_colon (s : string) : option (string * string) :=
  match s with
  | EmptyString => None
  | String c s' =>
      match split_last_colon s' with
      | Some (h, p) => Some (String c h, p)
      | None => if Ascii.eqb c ":"%char then Some (EmptyString, s') else None
      end
  end.

Definition net : node.Net :=
  {| node.SplitHostPort := fun s =>
       match split_last_colon s with
       | Some hp => OK hp
       | None => Err "missing port in address"
       end;
     node.ParseIP := fun s =>
       if bool_decide (s = "0.0.0.0") then Some [x00; x00; x00; x00]
       else if bool_decide (s = "10.0.0.7") then Some [x0a; x00; x00; x07]
       else None;
     node.IsUnspecified := fun ip => bool_decide (ip = [x00; x00; x00; x00]) |}.

Definition cfg_listen_any : gmap string value :=
  list_to_map [("peer.chaincodeListenAddress", VString "0.0.0.0:7999")].

Definition cfg_chaincode_address : gmap string value :=
  list_to_map [("peer.chaincodeAddress", VString "cc.example.com:7052");
               ("peer.chaincodeListenAddress", VString "0.0.0.0:7999")].

End Samples.

(** * Properties *)

(** ** The definitions at work *)

Section Runs.
Import ledgerfsck Audit Samples blockarchive.

Example getters_unset :
  ledgerconfig.GetMaxBlockfileSize cfg_unset = 67108864%Z
  ∧ ledgerconfig.GetArchivingParameters cfg_unset = (30%Z, 10%Z)
  ∧ ledgerconfig.GetBlockArchiverURL cfg_unset = "ledger-bank:222"
  ∧ ledgerconfig.GetBlockArchiverDir cfg_unset = "/tmp".
Proof. by vm_compute. Qed.

Example getters_set :
  ledgerconfig.GetMaxBlockfileSize cfg_archiver = 1024%Z
  ∧ ledgerconfig.GetArchivingParameters cfg_archiver = (5%Z, 2%Z)
  ∧ ledgerconfig.GetBlockArchiverURL cfg_archiver = "bank:22"
  ∧ ledgerconfig.GetBlockArchiverDir cfg_archiver = "/archive".
Proof. by vm_compute. Qed.

Example init_archiver :
  archiver.initBlockArchiverParams join cfg_archiver zero =
    {| IsArchiver := true; IsClient := false;
       NumBlockfileEachArchiving := 5; NumKeepLatestBlocks := 2;
       BlockArchiverDir := "/archive"; BlockArchiverURL := "bank:22";
       BlockStorePath := "/ledgersData/chains" |}.
Proof. by vm_compute. Qed.

(** An archiver started in a process whose IsClient flag is already set
    keeps it: the archiver branch does not assign that flag. *)
Example init_archiver_keeps_IsClient :
  role (archiver.initBlockArchiverParams join cfg_archiver
          (archiver.initBlockArchiverParams join cfg_client zero))
  = (true, true).
Proof. by vm_compute. Qed.

Example parse_with_equals :
  flag_Parse ["-mspPath=/msp"; "--mspID=Org1MSP"; "rest"; "-mspType"; "idemix"]
             new_ledgerFsck
  = inr {| channelName := ""; mspConfigPath := "/msp"; mspID := "Org1MSP";
           mspType := ""; ledger := None; bundle := None |}.
Proof. by vm_compute. Qed.

Example parse_missing_value :
  flag_Parse ["-mspPath"] new_ledgerFsck = inl (ErrNeedsArgument "mspPath").
Proof. by vm_compute. Qed.

Example missing_msp_folder :
  outcome (main env3 ["-channelName"; "mychannel"]) = Exited (-1).
Proof. by vm_compute. Qed.

Example run_good_ledger :
  steps (trace (main env3 args_code)) = (ChainVerifier.run env3 "mychannel"
                                            (good_ledger 3) mcs_ok 3).1
  ∧ exit_status (outcome (main env3 args_code)) = Some 0%Z.
Proof. by vm_compute. Qed.

Example run_broken_ledger :
  exit_status (outcome (main env_broken args_code)) = Some 255%Z
  ∧ last (trace (main env_broken args_code)) = Some (EvLog INFO "FAIL" []).
Proof. by vm_compute. Qed.

Example run_archived_ledger :
  exit_status (outcome (main env_archived args_code)) = Some 255%Z
  ∧ EvRead 3 ∉ trace (main env_archived args_code).
Proof.
  split; [by vm_compute|].
  rewrite list_elem_of_In. vm_compute. intuition discriminate.
Qed.

End Runs.

(** ** Byte slices *)

Lemma bytes_Equal_eq (a b : bytes) : bytes_Equal a b = true ↔ a = b.
Proof.
  revert b; induction a as [|x a IH]; intros [|y b]; simpl; try easy.
  rewrite andb_true_iff, IH. split.
  - intros [Hxy ->]. f_equal. by apply byte_dec_bl.
  - intros [= -> ->]. split; [by apply byte_dec_lb | done].
Qed.

Lemma bytes_Equal_decide (a b : bytes) : bytes_Equal a b = bool_decide (b = a).
Proof.
  destruct (bytes_Equal a b) eqn:E.
  - apply bytes_Equal_eq in E. subst. by rewrite bool_decide_eq_true_2.
  - symmetry. apply bool_decide_eq_false_2. intros ->.
    assert (bytes_Equal a a = true) by by apply bytes_Equal_eq.
    congruence.
Qed.

(** ** Configuration getters *)

Section ConfigProperties.
Context {V : Type} {registry : Viper V}.
Variable filepath_Join : string → string → string.
Implicit Types (cfg : V) (g : blockarchive.Globals).

Import blockarchive.

(** C5. For every configuration, [GetMaxBlockfileSize] returns what the
    registry holds under "ledger.maxBlockfileSize" when that key is set, and
    64 * 1024 * 1024 = 67108864 bytes (64 MiB) when it is not. *)
Theorem GetMaxBlockfileSize_default cfg :
  ledgerconfig.GetMaxBlockfileSize cfg =
    (if viper_IsSet cfg "ledger.maxBlockfileSize"
     then viper_GetInt cfg "ledger.maxBlockfileSize"
     else 64 * 1024 * 1024)%Z
  ∧ (64 * 1024 * 1024 = 67108864 ∧ 67108864 = 64 * 2 ^ 20)%Z.
Proof.
  split; [|lia].
  unfold ledgerconfig.GetMaxBlockfileSize, ledgerconfig.confMaxBlockfileSize.
  by destruct (viper_IsSet cfg _).
Qed.

(** C4. For every configuration, [GetArchivingParameters] returns the pair
    (each, keep): each is the value under "peer.archiver.each", or 30 when
    that key is unset; keep is the value under "peer.archiver.keep", or 10
    when that key is unset, each key defaulting on its own.  On an archiver
    node [initBlockArchiverParams] stores the first component as the number
    of block files archived per sweep and the second as the number kept. *)
Theorem GetArchivingParameters_defaults cfg g :
  let p := ledgerconfig.GetArchivingParameters cfg in
  let g' := archiver.initBlockArchiverParams filepath_Join cfg g in
  p.1 = (if viper_IsSet cfg "peer.archiver.each"
         then viper_GetInt cfg "peer.archiver.each" else 30%Z)
  ∧ p.2 = (if viper_IsSet cfg "peer.archiver.keep"
           then viper_GetInt cfg "peer.archiver.keep" else 10%Z)
  ∧ (NumBlockfileEachArchiving g', NumKeepLatestBlocks g') =
      (if viper_GetBool cfg "peer.archiver.enabled" then p
       else (NumBlockfileEachArchiving g, NumKeepLatestBlocks g)).
Proof.
  unfold archiver.initBlockArchiverParams, ledgerconfig.GetArchivingParameters,
    ledgerconfig.confArchiverEach, ledgerconfig.confArchiverKeep,
    ledgerconfig.defaultArchiverEach, ledgerconfig.defaultArchiverKeep.
  cbn -[viper_IsSet viper_GetInt viper_GetBool].
  destruct (viper_IsSet cfg "peer.archiver.each"),
    (viper_IsSet cfg "peer.archiver.keep"),
    (viper_GetBool cfg "peer.archiver.enabled"); done.
Qed.

(** C10. With "ledger.blockArchiver.url" unset the archive endpoint is the
    fixed string "ledger-bank:222", and with "ledger.blockArchiver.dir"
    unset the archive root directory is "/tmp"; a key that is set yields the
    string the registry holds for it, unchanged. *)
Theorem GetBlockArchiver_defaults cfg :
  ledgerconfig.GetBlockArchiverURL cfg =
    (if viper_IsSet cfg "ledger.blockArchiver.url"
     then viper_GetString cfg "ledger.blockArchiver.url"
     else "ledger-bank:222")
  ∧ ledgerconfig.GetBlockArchiverDir cfg =
    (if viper_IsSet cfg "ledger.blockArchiver.dir"
     then viper_GetString cfg "ledger.blockArchiver.dir"
     else "/tmp").
Proof.
  unfold ledgerconfig.GetBlockArchiverURL, ledgerconfig.GetBlockArchiverDir,
    ledgerconfig.confBlockArchiverURL, ledgerconfig.confBlockArchiverDir.
  by destruct (viper_IsSet cfg "ledger.blockArchiver.url"),
    (viper_IsSet cfg "ledger.blockArchiver.dir").
Qed.

(** What [initBlockArchiverParams] leaves in the two role flags, whatever
    the process-wide state was before. *)
Lemma init_flags cfg g :
  let g' := archiver.initBlockArchiverParams filepath_Join cfg g in
  IsArchiver g' = viper_GetBool cfg "peer.archiver.enabled"
  ∧ IsClient g' = (if viper_GetBool cfg "peer.archiver.enabled"
                   then IsClient g
                   else viper_GetBool cfg "peer.archiving.enabled").
Proof.
  unfold archiver.initBlockArchiverParams.
  cbn -[viper_GetBool ledgerconfig.GetArchivingParameters].
  by destruct (viper_GetBool cfg "peer.archiver.enabled").
Qed.

(** C3. Starting from a process state in which IsClient still holds its zero
    value, after [initBlockArchiverParams]: IsArchiver is true exactly when
    peer.archiver.enabled reads true; IsClient is true exactly when
    peer.archiver.enabled reads false and peer.archiving.enabled reads true;
    the two flags are never both true. *)
Theorem roles_after_init cfg g :
  IsClient g = false →
  let g' := archiver.initBlockArchiverParams filepath_Join cfg g in
  (IsArchiver g' = true ↔ viper_GetBool cfg "peer.archiver.enabled" = true)
  ∧ (IsClient g' = true ↔
       viper_GetBool cfg "peer.archiver.enabled" = false
       ∧ viper_GetBool cfg "peer.archiving.enabled" = true)
  ∧ ¬ (IsArchiver g' = true ∧ IsClient g' = true).
Proof.
  intros Hzero g'. destruct (init_flags cfg g) as [Ha Hc].
  fold g' in Ha, Hc. rewrite Ha, Hc, Hzero.
  destruct (viper_GetBool cfg "peer.archiver.enabled"),
    (viper_GetBool cfg "peer.archiving.enabled"); intuition congruence.
Qed.

(** C8, as the code has it.  The role is process-wide: it lives in the
    package-level flags IsArchiver and IsClient, which every store of the
    process reads.  Whatever an earlier initialization chose, after a later
    one IsArchiver is the later configuration's peer.archiver.enabled, and
    IsClient is the later peer.archiving.enabled on a non-archiver and is
    left as it was on an archiver. *)
Theorem role_is_process_wide (cfg1 cfg2 : V) g :
  let g1 := archiver.initBlockArchiverParams filepath_Join cfg1 g in
  let g2 := archiver.initBlockArchiverParams filepath_Join cfg2 g1 in
  role g2 =
    (viper_GetBool cfg2 "peer.archiver.enabled",
     if viper_GetBool cfg2 "peer.archiver.enabled"
     then IsClient g1
     else viper_GetBool cfg2 "peer.archiving.enabled").
Proof.
  intros g1 g2. unfold role. subst g2.
  by destruct (init_flags cfg2 g1) as [-> ->].
Qed.

End ConfigProperties.

(** ** The command line of the audit tool *)

Section CommandLine.
Import ledgerfsck Audit.

Lemma flag_Parse_three (double : bool) (c p i : string) (fsck : ledgerFsck) :
  flag_Parse [dashed double "channelName"; c; dashed double "mspPath"; p;
              dashed double "mspID"; i] fsck
  = inr (flag_Set FMspID i (flag_Set FMspPath p (flag_Set FChannelName c fsck))).
Proof. by destruct double. Qed.

(** C7, as the code has it.  The tool takes the channel name, the MSP folder
    and the MSP identity under the flag names channelName, mspPath and mspID
    (written with one or two minus signs).  A run that supplies these three,
    with a non-empty MSP folder and MSP identity, gets past argument parsing:
    [ReadConfiguration] returns a nil error with the three values stored and
    mspType left at its default "bccsp". *)
Theorem ReadConfiguration_accepts (double : bool) (c p i : string)
    (fsck : ledgerFsck) :
  p ≠ "" → i ≠ "" →
  outcome (ReadConfiguration
             [dashed double "channelName"; c; dashed double "mspPath"; p;
              dashed double "mspID"; i] fsck)
  = Returned ({| channelName := c; mspConfigPath := p; mspID := i;
                 mspType := "bccsp";
                 ledger := ledger fsck; bundle := bundle fsck |}, None).
Proof.
  intros Hp Hi. unfold ReadConfiguration.
  rewrite flag_Parse_three. cbn [flag_Set mspConfigPath mspID channelName mspType
    ledger bundle].
  rewrite (bool_decide_eq_false_2 _ Hp), (bool_decide_eq_false_2 _ Hi).
  reflexivity.
Qed.

End CommandLine.

(** ** Computations *)

Section ProcLaws.
Import ledgerfsck.
Context {A B C : Type}.

Lemma bind_ret_l (a : A) (f : A → Proc B) : bind (ret a) f = f a.
Proof. unfold bind, ret. by destruct (f a). Qed.

Lemma bind_emitted (t : list Event) (a : A) (f : A → Proc B) :
  bind (t, Returned a) f = (t ++ trace (f a), outcome (f a)).
Proof. unfold bind, trace, outcome. by destruct (f a). Qed.

Lemma bind_assoc (m : Proc A) (f : A → Proc B) (g : B → Proc C) :
  bind (bind m f) g = bind m (fun a => bind (f a) g).
Proof.
  destruct m as [t [a| | |]]; simpl; try done.
  destruct (f a) as [t' [b| | |]]; simpl; try done.
  destruct (g b) as [t'' o]. by rewrite app_assoc.
Qed.

Lemma bind_ext (m : Proc A) (f g : A → Proc B) :
  (∀ a, f a = g a) → bind m f = bind m g.
Proof. intros E. destruct m as [t [a| | |]]; simpl; try done. by rewrite E. Qed.

Lemma bind_exit (c : Z) (f : A → Proc B) : bind (os_Exit c) f = os_Exit c.
Proof. done. Qed.

End ProcLaws.

(** ** The audit tool *)

Section MainSplit.
Import ledgerfsck Audit.

(** [main] is its set-up followed by [Verify]. *)
Lemma main_setup_Verify (env : Env) (args : list string) :
  main env args = bind (setup env args) (Verify env).
Proof.
  unfold main, setup.
  rewrite bind_assoc. apply bind_ext. intros err.
  case_bool_decide; [done|].
  rewrite bind_assoc. apply bind_ext. intros [fsck1 err1].
  case_bool_decide; [done|].
  rewrite bind_assoc. apply bind_ext. intros err2.
  case_bool_decide; [done|].
  rewrite bind_assoc. apply bind_ext. intros [fsck3 err3].
  case_bool_decide; [done|].
  rewrite bind_assoc. apply bind_ext. intros [fsck4 err4].
  case_bool_decide; [done|].
  by rewrite bind_ret_l.
Qed.

Lemma main_after_setup (env : Env) (args : list string) t0 fsck :
  setup env args = (t0, Returned fsck) →
  main env args = (t0 ++ trace (Verify env fsck), outcome (Verify env fsck)).
Proof. intros E. by rewrite main_setup_Verify, E, bind_emitted. Qed.

Lemma bind_returned {A B} (m : Proc A) (f : A → Proc B) t b :
  bind m f = (t, Returned b) →
  ∃ t1 a t2, m = (t1, Returned a) ∧ f a = (t2, Returned b) ∧ t = t1 ++ t2.
Proof.
  destruct m as [t1 [a| | |]]; simpl; try done.
  destruct (f a) as [t2 o] eqn:E. intros [= <- ->]. by exists t1, a, t2.
Qed.

Lemma OpenLedger_returned (env : Env) fsck t fsck' :
  OpenLedger env fsck = (t, Returned (fsck', None)) →
  ∃ l signer, ledger fsck' = Some l ∧ LocalSigningIdentity env = Some signer.
Proof.
  unfold OpenLedger, ret. intros E.
  repeat (case_match; simplify_eq/=); eauto.
Qed.

Lemma GetLatestChannelConfigBundle_returned (env : Env) fsck t fsck' :
  GetLatestChannelConfigBundle env fsck = (t, Returned (fsck', None)) →
  ∃ l info, ledger fsck' = Some l ∧ GetBlockchainInfo l = OK info.
Proof.
  unfold GetLatestChannelConfigBundle, getCurrConfigBlockFromLedger, ret.
  intros E.
  repeat (case_match; simplify_eq/=); eauto.
Qed.

(** A set-up that returns has opened a ledger whose height it could read,
    and has found the local signing identity. *)
Lemma setup_returned (env : Env) (args : list string) t0 fsck :
  setup env args = (t0, Returned fsck) →
  ∃ l info signer,
    ledger fsck = Some l
    ∧ GetBlockchainInfo l = OK info
    ∧ LocalSigningIdentity env = Some signer.
Proof.
  unfold setup. intros E.
  apply bind_returned in E as (? & err & ? & _ & E & _).
  case_bool_decide; [done|].
  apply bind_returned in E as (? & [fsck1 err1] & ? & _ & E & _).
  case_bool_decide; [done|].
  apply bind_returned in E as (? & err2 & ? & _ & E & _).
  case_bool_decide; [done|].
  apply bind_returned in E as (? & [fsck3 err3] & ? & Hopen & E & _).
  case_bool_decide as Herr3; [done|].
  apply bind_returned in E as (? & [fsck4 err4] & ? & Hbundle & E & _).
  case_bool_decide as Herr4; [done|].
  injection E as _ ->.
  assert (err3 = None) as -> by (by destruct err3; [destruct Herr3|]).
  assert (err4 = None) as -> by (by destruct err4; [destruct Herr4|]).
  destruct (OpenLedger_returned _ _ _ _ Hopen) as (_ & signer & _ & Hs).
  destruct (GetLatestChannelConfigBundle_returned _ _ _ _ Hbundle)
    as (l & info & Hl & Hi).
  by exists l, info, signer.
Qed.

End MainSplit.

Section Sweep.
Import ledgerfsck Audit.
Variable env : Env.
Variable fsck : ledgerFsck.
Variable l : PeerLedger.
Variable mcs : MCS.
Variable height : N.
Hypothesis height_uint64 : (height < uint64_modulus)%N.

#[local] Abbreviation loop := (Verify_loop env fsck l mcs height).
#[local] Abbreviation hash b := (BlockHeaderHash env (Header b)).
#[local] Abbreviation claimed b := (PreviousHash (Header b)).

Lemma loop_done (f : nat) (i : N) (prev : bytes) :
  (height ≤ i)%N → loop f i prev = ret tt.
Proof.
  intros Hi. assert ((i <? height)%N = false) as E by by apply N.ltb_ge.
  destruct f; simpl; by rewrite E.
Qed.

Lemma inc_in_range (i : N) : (i < height)%N → uint64_inc i = (i + 1)%N.
Proof. intros Hi. unfold uint64_inc. apply N.mod_small. lia. Qed.

(** One iteration, with the sequencing computed. *)
Lemma loop_step (f : nat) (i : N) (prev : bytes) :
  (i < height)%N →
  loop (S f) i prev =
    match GetBlockByNumber l i with
    | Err err =>
        ([EvRead i;
          EvLog DEBUG "failed to read block number %d from ledger, with error"
                [AUint i; AError err];
          EvLog INFO "FAIL" []], Exited (-1))
    | OK b =>
        if bytes_Equal prev (claimed b) then
          match proto_Marshal env b with
          | Err err =>
              ([EvRead i; EvCompare i prev (claimed b);
                EvLog DEBUG "block number [%d]: previous hash matched" [AUint i];
                EvVerify i b;
                EvLog DEBUG "failed marshaling block, due to" [AError err];
                EvLog INFO "FAIL" []], Exited (-1))
          | OK signedBlock =>
              match mcs (channelName fsck) (Number (Header b)) signedBlock with
              | Some err =>
                  ([EvRead i; EvCompare i prev (claimed b);
                    EvLog DEBUG "block number [%d]: previous hash matched" [AUint i];
                    EvVerify i b;
                    EvLog DEBUG "failed to verify block with sequence number %d. %s"
                          [AUint i; AError err];
                    EvLog INFO "FAIL" []], Exited (-1))
              | None =>
                  ([EvRead i; EvCompare i prev (claimed b);
                    EvLog DEBUG "block number [%d]: previous hash matched" [AUint i];
                    EvVerify i b;
                    EvLog DEBUG "Block [seq = %d], hash = [%x], previous hash = [%x], VERIFICATION PASSED"
                          [AUint i; AHex (hash b); AHex (claimed b)];
                    EvSetPrevHash (hash b)]
                   ++ trace (loop f (i + 1) (hash b)),
                   outcome (loop f (i + 1) (hash b)))
              end
          end
        else
          ([EvRead i; EvCompare i prev (claimed b);
            EvLog DEBUG "block number [%d]: hash comparison has failed, previous block hash %x doesn't equal to hash claimed within block header %x"
                  [AUint i; AHex prev; AHex (claimed b)];
            EvLog INFO "FAIL" []], Exited (-1))
    end.
Proof.
  intros Hi. assert ((i <? height)%N = true) as E by by apply N.ltb_lt.
  cbn [Verify_loop]. rewrite E, (inc_in_range i Hi). cbn [negb].
  destruct (GetBlockByNumber l i) as [b|err]; [|done].
  destruct (bytes_Equal prev (claimed b)); [|done].
  destruct (proto_Marshal env b) as [sb|err]; [|done].
  destruct (mcs _ _ sb) as [err|]; [done|].
  cbn. by destruct (loop f (i + 1) (hash b)).
Qed.

(** The loop ends in one of two ways. *)
Lemma loop_outcome (f : nat) : ∀ i prev,
  (height - i ≤ N.of_nat f)%N →
  outcome (loop f i prev) = Returned tt ∨ outcome (loop f i prev) = Exited (-1).
Proof.
  induction f as [|f IH]; intros i prev Hf.
  - rewrite loop_done by lia. by left.
  - destruct (decide (i < height)%N) as [Hi|Hi];
      [|rewrite loop_done by lia; by left].
    rewrite (loop_step f i prev Hi).
    destruct (GetBlockByNumber l i) as [b|err]; [|by right].
    destruct (bytes_Equal prev (claimed b)); [|by right].
    destruct (proto_Marshal env b) as [sb|err]; [|by right].
    destruct (mcs _ _ sb) as [err|]; [by right|].
    cbn. apply IH. lia.
Qed.

(** Every block the loop deals with has a number between the one it starts
    from and the height. *)
Lemma loop_blocks_in_range (f : nat) : ∀ i prev e m,
  e ∈ trace (loop f i prev) → block_of e = Some m → (i ≤ m < height)%N.
Proof.
  induction f as [|f IH]; intros i prev e m.
  - destruct (decide (i < height)%N) as [Hi|Hi].
    + simpl. assert ((i <? height)%N = true) as -> by by apply N.ltb_lt.
      simpl. by intros ?%elem_of_nil.
    + rewrite loop_done by lia. by intros ?%elem_of_nil.
  - destruct (decide (i < height)%N) as [Hi|Hi];
      [|rewrite loop_done by lia; by intros ?%elem_of_nil].
    rewrite (loop_step f i prev Hi).
    destruct (GetBlockByNumber l i) as [b|err].
    2: { cbn. rewrite !elem_of_cons, elem_of_nil.
         intros [->|[->|[->|[]]]] [=]; subst; lia. }
    destruct (bytes_Equal prev (claimed b)).
    2: { cbn. rewrite !elem_of_cons, elem_of_nil.
         intros [->|[->|[->|[->|[]]]]] [=]; subst; lia. }
    destruct (proto_Marshal env b) as [sb|err].
    2: { cbn. rewrite !elem_of_cons, elem_of_nil.
         intros [->|[->|[->|[->|[->|[->|[]]]]]]] [=]; subst; lia. }
    destruct (mcs _ _ sb) as [err|].
    { cbn. rewrite !elem_of_cons, elem_of_nil.
      intros [->|[->|[->|[->|[->|[->|[]]]]]]] [=]; subst; lia. }
    cbn [trace fst]. rewrite elem_of_app, !elem_of_cons, elem_of_nil.
    intros [[->|[->|[->|[->|[->|[->|[]]]]]]]|Hin] Hm;
      try (injection Hm as <-; lia); try discriminate.
    specialize (IH _ _ _ _ Hin Hm). lia.
Qed.

(** The loop takes the steps of the specification's sweep over the block
    numbers from [i] up to the height, and returns exactly when that sweep
    runs to its end. *)
Lemma loop_refines_sweep (f : nat) : ∀ i prev,
  (height - i ≤ N.of_nat f)%N →
  let r := ChainVerifier.sweep env (channelName fsck) l mcs
             (ChainVerifier.numbers i (N.to_nat (height - i))) prev in
  steps (trace (loop f i prev)) = r.1
  ∧ outcome (loop f i prev) = (if r.2 then Returned tt else Exited (-1)).
Proof.
  induction f as [|f IH]; intros i prev Hf.
  - rewrite loop_done by lia.
    replace (N.to_nat (height - i)) with 0%nat by lia. done.
  - destruct (decide (i < height)%N) as [Hi|Hi].
    2: { rewrite loop_done by lia.
         replace (N.to_nat (height - i)) with 0%nat by lia. done. }
    rewrite (loop_step f i prev Hi).
    replace (N.to_nat (height - i)) with (S (N.to_nat (height - (i + 1)))) by lia.
    cbn [ChainVerifier.numbers ChainVerifier.sweep].
    destruct (GetBlockByNumber l i) as [b|err]; [|done].
    rewrite bytes_Equal_decide.
    case_bool_decide; [|done].
    unfold ChainVerifier.signature_ok.
    destruct (proto_Marshal env b) as [sb|err]; [|done].
    destruct (mcs _ _ sb) as [err|]; [done|].
    specialize (IH (i + 1)%N (hash b)). rewrite <- N.add_1_r.
    destruct IH as [IHt IHo]; [lia|].
    destruct (ChainVerifier.sweep _ _ _ _ _ _) as [t ok].
    cbn [fst snd trace outcome] in *. split; [|done].
    unfold steps in *. cbn. by rewrite IHt.
Qed.

Lemma prevHash_at_succ (i : N) (b : Block) :
  GetBlockByNumber l i = OK b → prevHash_at env l (i + 1) = hash b.
Proof using Type.
  clear height_uint64.
  intros E. unfold prevHash_at.
  replace (N.pred (i + 1)) with i by lia. by rewrite E.
Qed.

(** What a block that passes amounts to. *)
Lemma passes_inv (n : N) :
  passes env fsck l mcs n = true →
  ∃ b sb, GetBlockByNumber l n = OK b
          ∧ bytes_Equal (prevHash_at env l n) (claimed b) = true
          ∧ proto_Marshal env b = OK sb
          ∧ mcs (channelName fsck) (Number (Header b)) sb = None.
Proof using Type.
  clear height_uint64.
  unfold passes, ChainVerifier.signature_ok.
  destruct (GetBlockByNumber l n) as [b|] eqn:Hb; [|done].
  intros [Hc Hs]%andb_true_iff.
  destruct (proto_Marshal env b) as [sb|] eqn:Hm; [|done].
  destruct (mcs _ _ sb) eqn:Hv; [done|]. by exists b, sb.
Qed.

(** As long as blocks pass, the loop emits their iterations and goes on. *)
Lemma loop_passing (k : nat) : ∀ f i,
  (i + N.of_nat k ≤ height)%N →
  (∀ m, (i ≤ m < i + N.of_nat k)%N → passes env fsck l mcs m = true) →
  loop (k + f) i (prevHash_at env l i) =
    (flat_map (passing_iteration env l) (ChainVerifier.numbers i k)
       ++ trace (loop f (i + N.of_nat k) (prevHash_at env l (i + N.of_nat k))),
     outcome (loop f (i + N.of_nat k) (prevHash_at env l (i + N.of_nat k)))).
Proof.
  induction k as [|k IH]; intros f i Hk Hpass.
  - cbn. rewrite N.add_0_r. by destruct (loop f i _).
  - destruct (passes_inv i) as (b & sb & Hb & Hc & Hm & Hv);
      [apply Hpass; lia|].
    cbn [Nat.add]. rewrite loop_step by lia. rewrite Hb, Hc, Hm, Hv.
    rewrite <- (prevHash_at_succ i b Hb).
    rewrite (IH f (i + 1)%N); [|lia|intros m Hm'; apply Hpass; lia].
    cbn [ChainVerifier.numbers flat_map trace outcome fst snd].
    unfold passing_iteration at 2. rewrite Hb.
    rewrite (prevHash_at_succ i b Hb), <- N.add_1_r.
    replace (i + 1 + N.of_nat k)%N with (i + N.of_nat (S k))%N by lia.
    by rewrite <- app_assoc.
Qed.

(** An event of a passing iteration is about the block of that iteration. *)
Lemma passing_iteration_block (n : N) e m :
  e ∈ passing_iteration env l n → block_of e = Some m → m = n.
Proof using Type.
  clear height_uint64.
  unfold passing_iteration. destruct (GetBlockByNumber l n); [|by intros ?%elem_of_nil].
  rewrite !elem_of_cons, elem_of_nil.
  intros [->|[->|[->|[->|[->|[->|[]]]]]]] [=]; done.
Qed.

Lemma passing_prefix_blocks (k : nat) : ∀ i e m,
  e ∈ flat_map (passing_iteration env l) (ChainVerifier.numbers i k) →
  block_of e = Some m → (i ≤ m < i + N.of_nat k)%N.
Proof using Type.
  clear height_uint64.
  induction k as [|k IH]; intros i e m; cbn [ChainVerifier.numbers flat_map].
  - by intros ?%elem_of_nil.
  - rewrite elem_of_app. intros [Hin|Hin] Hm.
    + rewrite (passing_iteration_block _ _ _ Hin Hm). lia.
    + specialize (IH _ _ _ Hin Hm). lia.
Qed.

(** A read that fails ends the loop on the spot; what came before was about
    earlier blocks. *)
Lemma loop_read_error (f : nat) : ∀ i prev n err,
  EvRead n ∈ trace (loop f i prev) →
  GetBlockByNumber l n = Err err →
  ∃ pre,
    trace (loop f i prev) =
      pre ++ [EvRead n;
              EvLog DEBUG "failed to read block number %d from ledger, with error"
                    [AUint n; AError err];
              EvLog INFO "FAIL" []]
    ∧ outcome (loop f i prev) = Exited (-1)
    ∧ (∀ e m, e ∈ pre → block_of e = Some m → (i ≤ m < n)%N).
Proof.
  induction f as [|f IH]; intros i prev n err Hin Hn; revert Hin.
  - destruct (decide (i < height)%N) as [Hi|Hi].
    + simpl. assert ((i <? height)%N = true) as -> by by apply N.ltb_lt.
      simpl. by intros ?%elem_of_nil.
    + rewrite loop_done by lia. by intros ?%elem_of_nil.
  - destruct (decide (i < height)%N) as [Hi|Hi];
      [|rewrite loop_done by lia; by intros ?%elem_of_nil].
    rewrite (loop_step f i prev Hi).
    destruct (GetBlockByNumber l i) as [b|err'] eqn:Hb.
    2: { cbn. rewrite !elem_of_cons, elem_of_nil.
         intros [[= ->]|[?|[?|[]]]]; try done.
         rewrite Hb in Hn. injection Hn as ->. exists [].
         split; [done|]. split; [done|]. by intros ? ? ?%elem_of_nil. }
    assert (n ≠ i) as Hni by (intros ->; congruence).
    destruct (bytes_Equal prev (claimed b)).
    2: { cbn. rewrite !elem_of_cons, elem_of_nil.
         intros [[= ->]|[?|[?|[?|[]]]]]; done. }
    destruct (proto_Marshal env b) as [sb|err'].
    2: { cbn. rewrite !elem_of_cons, elem_of_nil.
         intros [[= ->]|[?|[?|[?|[?|[?|[]]]]]]]; done. }
    destruct (mcs _ _ sb) as [err'|].
    { cbn. rewrite !elem_of_cons, elem_of_nil.
      intros [[= ->]|[?|[?|[?|[?|[?|[]]]]]]]; done. }
    cbn [trace outcome fst snd]. rewrite elem_of_app, !elem_of_cons, elem_of_nil.
    intros [[[= ->]|[?|[?|[?|[?|[?|[]]]]]]]|Hin]; try done.
    pose proof (loop_blocks_in_range _ _ _ _ _ Hin eq_refl) as Hrange.
    destruct (IH _ _ _ _ Hin Hn) as (pre & -> & -> & Hpre).
    eexists. split; [by rewrite app_assoc|]. split; [done|].
    intros e' m'. rewrite elem_of_app, !elem_of_cons, elem_of_nil.
    intros [[->|[->|[->|[->|[->|[->|[]]]]]]]|Hin'] Hm;
      try (injection Hm as <-; lia); try discriminate.
    specialize (Hpre _ _ Hin' Hm). lia.
Qed.

End Sweep.

Section VerifyProperties.
Import ledgerfsck Audit.
Variable env : Env.
Variable fsck : ledgerFsck.
Variable l : PeerLedger.
Variable info : BlockchainInfo.
Variable signer : SigningIdentity.
Hypothesis opened : ledger fsck = Some l.
Hypothesis info_ok : GetBlockchainInfo l = OK info.
Hypothesis signer_ok : LocalSigningIdentity env = Some signer.

#[local] Abbreviation the_mcs := (gossip_NewMCS env (bundle fsck) signer).
#[local] Abbreviation the_loop :=
  (Verify_loop env fsck l the_mcs (Height info) (N.to_nat (Height info))).
#[local] Abbreviation height_line :=
  (EvLog DEBUG "ledger height of channel %s, is %d\n"
         [AString (channelName fsck); AUint (Height info)]).

(** [Verify] with its sequencing computed, once the ledger is open, its
    height is known and the signing identity is there. *)
Lemma Verify_unfold :
  Verify env fsck =
    match GetBlockByNumber l 0 with
    | Err err =>
        ([height_line; EvRead 0;
          EvLog DEBUG "failed to read genesis block number, with error"
                [AError err];
          EvLog INFO "FAIL" []], Exited (-1))
    | OK b0 =>
        let lp := the_loop 1%N (BlockHeaderHash env (Header b0)) in
        ([height_line; EvRead 0; EvSetPrevHash (BlockHeaderHash env (Header b0))]
           ++ trace lp
           ++ match outcome lp with
              | Returned _ => [EvLog INFO "PASS" []]
              | _ => []
              end,
         outcome lp)
    end.
Proof.
  unfold Verify. rewrite opened, info_ok, signer_ok.
  destruct (GetBlockByNumber l 0) as [b0|err]; [|done].
  cbn. destruct (Verify_loop _ _ _ _ _ _ _ _) as [t [[]| | |]]; cbn;
    by rewrite ?app_nil_r.
Qed.

Lemma pass_line_inv {A} (o : Outcome A) (e : Event) :
  e ∈ match o with
      | Returned _ => [EvLog INFO "PASS" []]
      | _ => []
      end →
  e = EvLog INFO "PASS" [].
Proof.
  destruct o; rewrite ?elem_of_cons, elem_of_nil; [|done..]. by intros [->|[]].
Qed.

Hypothesis height_uint64 : (Height info < uint64_modulus)%N.

(** The steps the model allots to the loop always suffice: [Verify] returns
    or exits with -1. *)
Lemma Verify_ends :
  outcome (Verify env fsck) = Returned tt
  ∨ outcome (Verify env fsck) = Exited (-1).
Proof.
  rewrite Verify_unfold.
  destruct (GetBlockByNumber l 0) as [b0|err]; [|by right].
  cbn [outcome snd].
  apply (loop_outcome env fsck l the_mcs (Height info) height_uint64). lia.
Qed.

(** C1. On a ledger of height h >= 1, [Verify] takes the steps of the
    specification's procedure, in its order: it reads block 0 and sets
    prevHash to the header hash of block 0; then for n = 1, ..., h - 1 in
    ascending order it reads block n, compares the previous-hash field of
    block n with prevHash, checks the signature of block n with the message
    crypto service built on the channel's policy bundle, and sets prevHash to
    the header hash of block n; it stops at the first step that fails.  It
    returns when the procedure runs to the end and exits with -1
    otherwise. *)
Theorem Verify_follows_procedure :
  (1 ≤ Height info)%N →
  let r := ChainVerifier.run env (channelName fsck) l the_mcs (Height info) in
  steps (trace (Verify env fsck)) = r.1
  ∧ outcome (Verify env fsck) = (if r.2 then Returned tt else Exited (-1)).
Proof.
  intros Hh. rewrite Verify_unfold. unfold ChainVerifier.run.
  destruct (GetBlockByNumber l 0) as [b0|err]; [|done].
  destruct (loop_refines_sweep env fsck l the_mcs (Height info) height_uint64
              (N.to_nat (Height info)) 1%N (BlockHeaderHash env (Header b0)))
    as [Ht Ho]; [lia|].
  destruct (ChainVerifier.sweep _ _ _ _ _ _) as [t ok].
  cbn [fst snd trace outcome] in *. split; [|done].
  unfold steps in *. cbn. rewrite List.filter_app, Ht.
  destruct (outcome _); cbn; by rewrite app_nil_r.
Qed.

(** C6. If a call of GetBlockByNumber made by [Verify] returns an error (a
    failed fetch of an archived file is one), [Verify] logs the failure and
    FAIL right after that call and ends the process with os.Exit(-1), exit
    status 255: nothing follows in the run, and every block dealt with before
    has a smaller number. *)
Theorem read_error_aborts (n : N) (err : error) :
  EvRead n ∈ trace (Verify env fsck) →
  GetBlockByNumber l n = Err err →
  ∃ pre fmt args,
    trace (Verify env fsck) =
      pre ++ [EvRead n; EvLog DEBUG fmt args; EvLog INFO "FAIL" []]
    ∧ outcome (Verify env fsck) = Exited (-1)
    ∧ exit_status (outcome (Verify env fsck)) = Some 255%Z
    ∧ (∀ e m, e ∈ pre → block_of e = Some m → (m < n)%N).
Proof.
  rewrite Verify_unfold.
  destruct (GetBlockByNumber l 0) as [b0|err0] eqn:H0.
  - cbn [trace outcome fst snd]. intros Hin Hn.
    assert (EvRead n ∈ trace (the_loop 1%N (BlockHeaderHash env (Header b0))))
      as Hloop.
    { revert Hin. rewrite !elem_of_app, !elem_of_cons, elem_of_nil.
      intros [[?|[[= ->]|[?|[]]]]|[?|Hin]]; try done; [congruence|].
      by apply pass_line_inv in Hin. }
    destruct (loop_read_error env fsck l the_mcs (Height info) height_uint64
                _ _ _ _ _ Hloop Hn) as (pre & Et & Eo & Hpre).
    rewrite Et, Eo.
    exists ([height_line; EvRead 0;
             EvSetPrevHash (BlockHeaderHash env (Header b0))] ++ pre).
    do 2 eexists. split; [by rewrite app_nil_r, <- app_assoc|].
    split; [done|]. split; [done|].
    pose proof (loop_blocks_in_range env fsck l the_mcs (Height info)
                  height_uint64 _ _ _ _ _ Hloop eq_refl) as Hrange.
    intros e m. rewrite elem_of_app, !elem_of_cons, elem_of_nil.
    intros [[->|[->|[->|[]]]]|Hin'] Hm;
      try (injection Hm as <-; lia); try discriminate.
    specialize (Hpre _ _ Hin' Hm). lia.
  - cbn [trace outcome fst snd]. rewrite !elem_of_cons, elem_of_nil.
    intros [?|[[= ->]|[?|[?|[]]]]] Hn; try done.
    exists [height_line]. do 2 eexists. split; [done|].
    split; [done|]. split; [done|].
    intros e m. rewrite !elem_of_cons, elem_of_nil. intros [->|[]]. done.
Qed.

(** C9. [Verify] checks no signature and compares no hash for block 0: both
    happen only in iterations 1, ..., height - 1 of its loop.  On a ledger
    of height 1 whose block 0 can be read, the run is: log the height, read
    block 0, set prevHash, log PASS, return; no signature is verified and no
    hash is compared. *)
Theorem genesis_signature_not_checked :
  (∀ e n, e ∈ trace (Verify env fsck) →
          (∃ b, e = EvVerify n b) ∨ (∃ p c, e = EvCompare n p c) →
          (1 ≤ n < Height info)%N)
  ∧ (Height info = 1%N →
     ∀ b0, GetBlockByNumber l 0 = OK b0 →
     Verify env fsck =
       ([height_line; EvRead 0;
         EvSetPrevHash (BlockHeaderHash env (Header b0));
         EvLog INFO "PASS" []], Returned tt)).
Proof.
  split.
  - intros e n Hin He.
    assert (block_of e = Some n ∧ e ≠ EvRead n) as [Hb Hr].
    { destruct He as [[b ->]|(p & c & ->)]; done. }
    revert Hin. rewrite Verify_unfold.
    destruct (GetBlockByNumber l 0) as [b0|err0]; cbn [trace fst].
    + rewrite !elem_of_app, !elem_of_cons, elem_of_nil.
      intros [[->|[->|[->|[]]]]|[Hin|Hin]]; try done;
        try (cbn in Hb; injection Hb as <-; done).
      * by apply (loop_blocks_in_range env fsck l the_mcs (Height info)
                    height_uint64 _ _ _ _ _ Hin Hb).
      * apply pass_line_inv in Hin. by subst e.
    + rewrite !elem_of_cons, elem_of_nil.
      intros [->|[->|[->|[->|[]]]]]; try done.
      cbn in Hb. by injection Hb as <-.
  - intros Hh b0 H0. rewrite Verify_unfold, H0, Hh.
    by rewrite loop_done.
Qed.

End VerifyProperties.

Section ExitStatus.
Import ledgerfsck Audit.
Variable env : Env.
Variable args : list string.
Variable t0 : list Event.
Variable fsck : ledgerFsck.
Variable l : PeerLedger.
Variable info : BlockchainInfo.
Variable signer : SigningIdentity.
Variable b0 : Block.
Hypothesis setup_ok : setup env args = (t0, Returned fsck).
Hypothesis opened : ledger fsck = Some l.
Hypothesis info_ok : GetBlockchainInfo l = OK info.
Hypothesis signer_ok : LocalSigningIdentity env = Some signer.
Hypothesis height_uint64 : (Height info < uint64_modulus)%N.
Hypothesis genesis_ok : GetBlockByNumber l 0 = OK b0.

#[local] Abbreviation mcs := (gossip_NewMCS env (bundle fsck) signer).
#[local] Abbreviation sweep_from_1 :=
  (Verify_loop env fsck l mcs (Height info) (N.to_nat (Height info)) 1%N
               (BlockHeaderHash env (Header b0))).
#[local] Abbreviation mismatch_line n expected observed :=
  (EvLog DEBUG "block number [%d]: hash comparison has failed, previous block hash %x doesn't equal to hash claimed within block header %x"
         [AUint n; AHex expected; AHex observed]).

Lemma genesis_hash : BlockHeaderHash env (Header b0) = prevHash_at env l 1.
Proof. symmetry. apply (prevHash_at_succ env l 0 b0 genesis_ok). Qed.

Lemma sweep_all_pass :
  (∀ n, (1 ≤ n < Height info)%N → passes env fsck l mcs n = true) →
  ∃ t, sweep_from_1 = (t, Returned tt).
Proof.
  intros Hpass. destruct (decide (Height info ≤ 1)%N) as [Hh|Hh].
  { rewrite loop_done by done. by eexists. }
  rewrite genesis_hash.
  replace (N.to_nat (Height info))
    with (N.to_nat (Height info - 1) + 1)%nat by lia.
  rewrite (loop_passing env fsck l mcs (Height info) height_uint64);
    [|lia|intros m Hm; apply Hpass; lia].
  rewrite loop_done by lia. by eexists.
Qed.

Lemma sweep_first_mismatch (n : N) (b : Block) :
  (1 ≤ n < Height info)%N →
  (∀ m, (1 ≤ m < n)%N → passes env fsck l mcs m = true) →
  GetBlockByNumber l n = OK b →
  PreviousHash (Header b) ≠ prevHash_at env l n →
  ∃ tv,
    sweep_from_1 =
      (tv ++ [EvCompare n (prevHash_at env l n) (PreviousHash (Header b));
              mismatch_line n (prevHash_at env l n) (PreviousHash (Header b));
              EvLog INFO "FAIL" []], Exited (-1))
    ∧ (∀ e m, e ∈ tv → block_of e = Some m → (m ≤ n)%N).
Proof.
  intros Hn Hpass Hb Hne. rewrite genesis_hash.
  replace (N.to_nat (Height info))
    with (N.to_nat (n - 1) + S (N.to_nat (Height info - n)))%nat by lia.
  rewrite (loop_passing env fsck l mcs (Height info) height_uint64);
    [|lia|intros m Hm; apply Hpass; lia].
  replace (1 + N.of_nat (N.to_nat (n - 1)))%N with n by lia.
  rewrite (loop_step env fsck l mcs (Height info) height_uint64) by lia.
  rewrite Hb.
  assert (bytes_Equal (prevHash_at env l n) (PreviousHash (Header b)) = false)
    as ->.
  { destruct (bytes_Equal _ _) eqn:E; [|done].
    apply bytes_Equal_eq in E. congruence. }
  cbn [trace outcome fst snd].
  exists (flat_map (passing_iteration env l)
            (ChainVerifier.numbers 1 (N.to_nat (n - 1))) ++ [EvRead n]).
  split; [by rewrite <- app_assoc|].
  intros e m. rewrite elem_of_app, elem_of_cons, elem_of_nil.
  intros [Hin|[->|[]]] Hm.
  - pose proof (passing_prefix_blocks env l _ _ _ _ Hin Hm). lia.
  - injection Hm as <-. lia.
Qed.

(** C2. In a run of the tool that gets to the sweep (set-up done, height
    known, block 0 read):
    - if every block from 1 to height - 1 can be read, carries the header
      hash of its predecessor as previous hash and has a valid signature,
      then the last thing the run emits is the line PASS and [main] returns,
      that is, the process exits with status 0;
    - if block n is the first whose previous hash differs (all blocks before
      it pass), the run ends with the comparison for block n, a message
      carrying n, the expected hash (the header hash of block n - 1) and the
      observed previous hash, and the line FAIL, and the process exits through
      os.Exit(-1), status 255; nothing follows, and nothing before is about a
      block beyond n. *)
Theorem audit_exit_status :
  ((∀ n, (1 ≤ n < Height info)%N → passes env fsck l mcs n = true) →
   last (trace (main env args)) = Some (EvLog INFO "PASS" [])
   ∧ outcome (main env args) = Returned tt
   ∧ exit_status (outcome (main env args)) = Some 0%Z)
  ∧ (∀ n b bp,
       (1 ≤ n < Height info)%N →
       (∀ m, (1 ≤ m < n)%N → passes env fsck l mcs m = true) →
       GetBlockByNumber l (n - 1) = OK bp →
       GetBlockByNumber l n = OK b →
       PreviousHash (Header b) ≠ BlockHeaderHash env (Header bp) →
       let expected := BlockHeaderHash env (Header bp) in
       let observed := PreviousHash (Header b) in
       ∃ tv,
         trace (main env args) =
           t0 ++ tv ++ [EvCompare n expected observed;
                        mismatch_line n expected observed;
                        EvLog INFO "FAIL" []]
         ∧ (∀ e m, e ∈ tv → block_of e = Some m → (m ≤ n)%N)
         ∧ outcome (main env args) = Exited (-1)
         ∧ exit_status (outcome (main env args)) = Some 255%Z
         ∧ exit_status (outcome (main env args)) ≠ Some 0%Z).
Proof.
  rewrite (main_after_setup env args t0 fsck setup_ok).
  rewrite (Verify_unfold env fsck l info signer opened info_ok signer_ok).
  rewrite genesis_ok. cbn [trace outcome fst snd]. split.
  - intros Hpass. destruct (sweep_all_pass Hpass) as [t ->].
    cbn [trace outcome fst snd]. split; [|done].
    rewrite !app_assoc. apply last_snoc.
  - intros n b bp Hn Hpass Hbp Hb Hne.
    assert (prevHash_at env l n = BlockHeaderHash env (Header bp)) as Hexp.
    { unfold prevHash_at. replace (N.pred n) with (n - 1)%N by lia.
      by rewrite Hbp. }
    destruct (sweep_first_mismatch n b Hn Hpass Hb) as (tv & -> & Htv);
      [by rewrite Hexp|].
    rewrite Hexp. cbn [trace outcome fst snd].
    exists ([EvLog DEBUG "ledger height of channel %s, is %d\n"
                   [AString (channelName fsck); AUint (Height info)];
             EvRead 0; EvSetPrevHash (BlockHeaderHash env (Header b0))] ++ tv).
    split; [by rewrite app_nil_r, <- !app_assoc|].
    split; [|done].
    intros e m. rewrite elem_of_app, !elem_of_cons, elem_of_nil.
    intros [[->|[->|[->|[]]]]|Hin] Hm; try discriminate.
    + injection Hm as <-. lia.
    + by apply (Htv e m).
Qed.

End ExitStatus.

(** ** The properties at the sample inputs *)

Section Instances.
Import ledgerfsck Audit Samples blockarchive.

Lemma roles_after_init_witness :
  IsClient zero = false
  ∧ (IsArchiver (archiver.initBlockArchiverParams join cfg_client zero) = true
     ↔ viper_GetBool cfg_client "peer.archiver.enabled" = true)
  ∧ (IsClient (archiver.initBlockArchiverParams join cfg_client zero) = true
     ↔ viper_GetBool cfg_client "peer.archiver.enabled" = false
       ∧ viper_GetBool cfg_client "peer.archiving.enabled" = true)
  ∧ ¬ (IsArchiver (archiver.initBlockArchiverParams join cfg_client zero) = true
       ∧ IsClient (archiver.initBlockArchiverParams join cfg_client zero) = true).
Proof.
  split; [reflexivity|].
  apply (roles_after_init join cfg_client zero). reflexivity.
Defined.

(** C8 fails on the code: initialization writes process-wide state, and a
    second initialization in the same process changes the role the first
    store reads. *)
Lemma role_not_per_store :
  archiver.initBlockArchiverParams join cfg_archiver zero ≠ zero
  ∧ role (archiver.initBlockArchiverParams join cfg_archiver zero)
    = (true, false)
  ∧ role (archiver.initBlockArchiverParams join cfg_client
            (archiver.initBlockArchiverParams join cfg_archiver zero))
    = (false, true)
  ∧ ¬ (∀ (cfg : gmap string value) g,
         archiver.initBlockArchiverParams join cfg g = g)
  ∧ ¬ (∀ (cfgA cfgB : gmap string value) g,
         role (archiver.initBlockArchiverParams join cfgB
                 (archiver.initBlockArchiverParams join cfgA g))
         = role (archiver.initBlockArchiverParams join cfgA g)).
Proof.
  repeat split.
  - intros E. by apply (f_equal IsArchiver) in E.
  - intros E. specialize (E cfg_archiver zero).
    by apply (f_equal IsArchiver) in E.
  - intros E. specialize (E cfg_archiver cfg_client zero).
    by apply (f_equal fst) in E.
Qed.

Lemma ReadConfiguration_accepts_witness :
  "/msp" ≠ "" ∧ "Org1MSP" ≠ ""
  ∧ outcome (ReadConfiguration args_code new_ledgerFsck)
    = Returned ({| channelName := "mychannel"; mspConfigPath := "/msp";
                   mspID := "Org1MSP"; mspType := "bccsp";
                   ledger := None; bundle := None |}, None).
Proof.
  split; [done|]. split; [done|].
  apply (ReadConfiguration_accepts true "mychannel" "/msp" "Org1MSP"
           new_ledgerFsck); done.
Defined.

(** C7 fails on the code: the flag names of the specification are not
    defined, and the flag package ends the process with status 2 while
    parsing the arguments. *)
Lemma spec_flags_rejected :
  flag_Parse args_spec new_ledgerFsck = inl (ErrNotDefined "channel")
  ∧ ReadConfiguration args_spec new_ledgerFsck
    = ([EvStderr "flag provided but not defined: -%s" [AString "channel"]],
       Exited 2)
  ∧ (¬ ∃ r, outcome (ReadConfiguration args_spec new_ledgerFsck) = Returned r)
  ∧ exit_status (outcome (main (env_with (good_ledger 1)) args_spec))
    = Some 2%Z.
Proof.
  split; [reflexivity|]. split; [reflexivity|]. split; [|reflexivity].
  by intros [r Hr].
Qed.

Lemma all_pass_3 (n : N) :
  (1 ≤ n < 3)%N →
  passes env3 fsck3 (good_ledger 3)
         (gossip_NewMCS env3 (bundle fsck3) (MkSigner [x01])) n = true.
Proof.
  intros Hn. assert (n = 1 ∨ n = 2)%N as [-> | ->] by lia; reflexivity.
Defined.

Lemma Verify_follows_procedure_witness :
  (3 < uint64_modulus)%N ∧ (1 ≤ 3)%N
  ∧ steps (trace (Verify env3 fsck3)) =
      [EvRead 0; EvSetPrevHash [x01];
       EvRead 1; EvCompare 1 [x01] [x01]; EvVerify 1 (block 1);
       EvSetPrevHash [x01; x01];
       EvRead 2; EvCompare 2 [x01; x01] [x01; x01]; EvVerify 2 (block 2);
       EvSetPrevHash [x01; x01; x01]]
  ∧ outcome (Verify env3 fsck3) = Returned tt.
Proof.
  split; [reflexivity|]. split; [lia|].
  apply (Verify_follows_procedure env3 fsck3 (good_ledger 3) (info_of 3)
           (MkSigner [x01])); [reflexivity..|cbn; lia].
Defined.

Lemma read_error_aborts_witness :
  EvRead 2 ∈ trace (Verify env_archived fsck_archived)
  ∧ GetBlockByNumber archived_ledger 2 = Err "archive unavailable"
  ∧ ∃ pre fmt args,
      trace (Verify env_archived fsck_archived) =
        pre ++ [EvRead 2; EvLog DEBUG fmt args; EvLog INFO "FAIL" []]
      ∧ outcome (Verify env_archived fsck_archived) = Exited (-1)
      ∧ exit_status (outcome (Verify env_archived fsck_archived)) = Some 255%Z
      ∧ (∀ e m, e ∈ pre → block_of e = Some m → (m < 2)%N).
Proof.
  assert (EvRead 2 ∈ trace (Verify env_archived fsck_archived)) as Hin.
  { apply (list_elem_of_lookup_2 _ 9%nat). reflexivity. }
  split; [exact Hin|]. split; [reflexivity|].
  apply (read_error_aborts env_archived fsck_archived archived_ledger (info_of 4)
           (MkSigner [x01]) eq_refl eq_refl eq_refl eq_refl
           2%N "archive unavailable" Hin eq_refl).
Defined.

Lemma genesis_signature_not_checked_witness :
  (1 < uint64_modulus)%N
  ∧ GetBlockByNumber (good_ledger 1) 0 = OK (block 0)
  ∧ (∀ e n, e ∈ trace (Verify env1 fsck1) →
            (∃ b, e = EvVerify n b) ∨ (∃ p c, e = EvCompare n p c) →
            (1 ≤ n < 1)%N)
  ∧ Verify env1 fsck1 =
      ([EvLog DEBUG "ledger height of channel %s, is %d\n"
              [AString "mychannel"; AUint 1];
        EvRead 0; EvSetPrevHash [x01]; EvLog INFO "PASS" []], Returned tt).
Proof.
  split; [reflexivity|]. split; [reflexivity|].
  pose proof (genesis_signature_not_checked env1 fsck1 (good_ledger 1)
                (info_of 1) (MkSigner [x01]) eq_refl eq_refl eq_refl eq_refl)
    as [Hnone Hrun].
  split; [exact Hnone|exact (Hrun eq_refl (block 0) eq_refl)].
Defined.

Lemma audit_exit_status_witness :
  (setup env3 args_code = (trace (setup env3 args_code), Returned fsck3)
   ∧ last (trace (main env3 args_code)) = Some (EvLog INFO "PASS" [])
   ∧ outcome (main env3 args_code) = Returned tt
   ∧ exit_status (outcome (main env3 args_code)) = Some 0%Z)
  ∧ (setup env_broken args_code
       = (trace (setup env_broken args_code), Returned fsck_broken)
     ∧ GetBlockByNumber broken_ledger 1 = OK (block 1)
     ∧ GetBlockByNumber broken_ledger 2 = OK (forged 2)
     ∧ [x00] ≠ hash (Header (block 1))
     ∧ ∃ tv,
         trace (main env_broken args_code) =
           trace (setup env_broken args_code) ++ tv ++
             [EvCompare 2 [x01; x01] [x00];
              EvLog DEBUG "block number [%d]: hash comparison has failed, previous block hash %x doesn't equal to hash claimed within block header %x"
                    [AUint 2; AHex [x01; x01]; AHex [x00]];
              EvLog INFO "FAIL" []]
         ∧ (∀ e m, e ∈ tv → block_of e = Some m → (m ≤ 2)%N)
         ∧ outcome (main env_broken args_code) = Exited (-1)
         ∧ exit_status (outcome (main env_broken args_code)) = Some 255%Z
         ∧ exit_status (outcome (main env_broken args_code)) ≠ Some 0%Z).
Proof.
  split.
  - split; [reflexivity|].
    pose proof (audit_exit_status env3 args_code (trace (setup env3 args_code))
                  fsck3 (good_ledger 3) (info_of 3) (MkSigner [x01]) (block 0)
                  eq_refl eq_refl eq_refl eq_refl eq_refl eq_refl)
      as [Hpass _].
    exact (Hpass all_pass_3).
  - split; [reflexivity|]. split; [reflexivity|].
    split; [reflexivity|]. split; [discriminate|].
    pose proof (audit_exit_status env_broken args_code
                  (trace (setup env_broken args_code))
                  fsck_broken broken_ledger (info_of 4) (MkSigner [x01])
                  (block 0)
                  eq_refl eq_refl eq_refl eq_refl eq_refl eq_refl)
      as [_ Hfail].
    apply (Hfail 2%N (forged 2) (block 1)); try reflexivity.
    + cbn. lia.
    + intros m Hm. assert (m = 1)%N as -> by lia. reflexivity.
    + discriminate.
Defined.

End Instances.

(** * Further properties of the code *)

(** ** Package ledgerconfig *)

Section MoreConfigProperties.
Context {V : Type} {registry : Viper V}.
Variable filepath_Join : string → string → string.
Implicit Types (cfg : V) (g : blockarchive.Globals).
Import blockarchive Extra.

(** X1. [GetPvtdataStorePurgeInterval] never returns 0: it is the configured
    value when that is positive and 100 otherwise (unset, zero or
    negative); the conversion to uint64 leaves a positive int as it is. *)
Theorem purge_interval_positive cfg :
  is_int (viper_GetInt cfg "ledger.pvtdataStore.purgeInterval") →
  let v := viper_GetInt cfg "ledger.pvtdataStore.purgeInterval" in
  let r := ledgerconfig.GetPvtdataStorePurgeInterval cfg in
  (0 < r < 2 ^ 63)%N
  ∧ Z.of_N r = (if (v <=? 0)%Z then 100 else v)%Z.
Proof.
  unfold is_int, ledgerconfig.GetPvtdataStorePurgeInterval, uint64_of_int.
  intros Hint. cbn zeta.
  destruct (Z.leb_spec (viper_GetInt cfg "ledger.pvtdataStore.purgeInterval") 0).
  - rewrite Z.mod_small by lia. split; [|reflexivity]. cbn. lia.
  - rewrite Z.mod_small by lia. split; [lia|]. rewrite Z2N.id; lia.
Qed.

(** X2. The two batch parameters of the private-data store are always
    positive: a configured value that is unset, zero or negative is replaced
    by the default, 5000 for the batch size and 1000 for the interval. *)
Theorem coll_elg_parameters_positive cfg :
  let size := viper_GetInt cfg "ledger.pvtdataStore.collElgProcMaxDbBatchSize" in
  let interval :=
    viper_GetInt cfg "ledger.pvtdataStore.collElgProcDbBatchesInterval" in
  (0 < ledgerconfig.GetPvtdataStoreCollElgProcMaxDbBatchSize cfg)%Z
  ∧ ledgerconfig.GetPvtdataStoreCollElgProcMaxDbBatchSize cfg
    = (if (size <=? 0)%Z then 5000 else size)%Z
  ∧ (0 < ledgerconfig.GetPvtdataStoreCollElgProcDbBatchesInterval cfg)%Z
  ∧ ledgerconfig.GetPvtdataStoreCollElgProcDbBatchesInterval cfg
    = (if (interval <=? 0)%Z then 1000 else interval)%Z.
Proof.
  unfold ledgerconfig.GetPvtdataStoreCollElgProcMaxDbBatchSize,
    ledgerconfig.GetPvtdataStoreCollElgProcDbBatchesInterval.
  cbn -[viper_GetInt Z.leb].
  destruct (Z.leb_spec
              (viper_GetInt cfg "ledger.pvtdataStore.collElgProcMaxDbBatchSize") 0),
    (Z.leb_spec
       (viper_GetInt cfg "ledger.pvtdataStore.collElgProcDbBatchesInterval") 0);
    repeat split; lia.
Qed.


(** The eight directory getters, in the order of [ledger_directories]. *)
Lemma ledger_paths_eq cfg :
  [ledgerconfig.GetLedgerProviderPath filepath_Join cfg;
   ledgerconfig.GetStateLevelDBPath filepath_Join cfg;
   ledgerconfig.GetHistoryLevelDBPath filepath_Join cfg;
   ledgerconfig.GetBlockStorePath filepath_Join cfg;
   ledgerconfig.GetPvtdataStorePath filepath_Join cfg;
   ledgerconfig.GetInternalBookkeeperPath filepath_Join cfg;
   ledgerconfig.GetConfigHistoryPath filepath_Join cfg;
   ledgerconfig.GetCouchdbRedologsPath filepath_Join cfg]
  = filepath_Join (ledgerconfig.GetRootPath filepath_Join cfg)
      <$> ledger_directories.
Proof. reflexivity. Qed.

(** X4. The eight ledger directories (ledger provider, state and history
    databases, block store, private-data store, bookkeeper, configuration
    history, CouchDB redo logs) are children of [GetRootPath], each under
    its own name; when joining the root with two different of these names
    gives different paths, no two stores share a directory. *)
Theorem ledger_paths_distinct cfg :
  let root := ledgerconfig.GetRootPath filepath_Join cfg in
  (∀ a b, a ∈ ledger_directories → b ∈ ledger_directories →
          filepath_Join root a = filepath_Join root b → a = b) →
  NoDup [ledgerconfig.GetLedgerProviderPath filepath_Join cfg;
         ledgerconfig.GetStateLevelDBPath filepath_Join cfg;
         ledgerconfig.GetHistoryLevelDBPath filepath_Join cfg;
         ledgerconfig.GetBlockStorePath filepath_Join cfg;
         ledgerconfig.GetPvtdataStorePath filepath_Join cfg;
         ledgerconfig.GetInternalBookkeeperPath filepath_Join cfg;
         ledgerconfig.GetConfigHistoryPath filepath_Join cfg;
         ledgerconfig.GetCouchdbRedologsPath filepath_Join cfg].
Proof.
  intros root Hinj. rewrite ledger_paths_eq.
  apply NoDup_fmap_2_strong; [exact Hinj|].
  apply (bool_decide_unpack _). by vm_compute.
Qed.

(** X5. [initBlockArchiverParams] is idempotent: running it again under the
    same configuration leaves all seven variables as the first run set
    them. *)
Theorem init_idempotent cfg g :
  archiver.initBlockArchiverParams filepath_Join cfg
    (archiver.initBlockArchiverParams filepath_Join cfg g)
  = archiver.initBlockArchiverParams filepath_Join cfg g.
Proof.
  unfold archiver.initBlockArchiverParams.
  cbn -[viper_GetBool ledgerconfig.GetArchivingParameters
        ledgerconfig.GetBlockArchiverDir ledgerconfig.GetBlockArchiverURL
        ledgerconfig.GetBlockStorePath].
  destruct (viper_GetBool cfg "peer.archiver.enabled") eqn:E;
    cbn -[viper_GetBool ledgerconfig.GetArchivingParameters
          ledgerconfig.GetBlockArchiverDir ledgerconfig.GetBlockArchiverURL
          ledgerconfig.GetBlockStorePath];
    by rewrite ?E.
Qed.

End MoreConfigProperties.

(** ** The set-up of the audit tool *)

Section SetupProperties.
Import ledgerfsck Audit Extra.

Lemma flag_Set_frame (f : FlagVar) (v : string) (fsck : ledgerFsck) :
  ledger (flag_Set f v fsck) = ledger fsck
  ∧ bundle (flag_Set f v fsck) = bundle fsck.
Proof. by destruct f. Qed.

(** Parsing flags touches the four flag variables only. *)
Lemma flag_Parse_frame (n : nat) : ∀ args fsck fsck',
  (length args ≤ n)%nat →
  flag_Parse args fsck = inr fsck' →
  ledger fsck' = ledger fsck ∧ bundle fsck' = bundle fsck.
Proof.
  induction n as [|n IH]; intros [|s rest] fsck fsck' Hlen; cbn [flag_Parse];
    try (by intros [= ->]); [cbn in Hlen; lia|].
  cbn [length] in Hlen.
  destruct (flag_body s) as [body|]; [|by intros [= ->]].
  destruct (bad_syntax body); [done|].
  destruct (split_name body) as [name value].
  destruct (formal !! name) as [flag|]; [|by case_bool_decide].
  destruct value as [v|].
  - intros E. apply IH in E as [-> ->]; [|lia]. apply flag_Set_frame.
  - destruct rest as [|v rest']; [done|]. cbn [length] in Hlen.
    intros E. apply IH in E as [-> ->]; [|lia]. apply flag_Set_frame.
Qed.

(** How [ReadConfiguration] ends, in terms of what the flags left in the
    flag variables. *)
Lemma ReadConfiguration_cases (args : list string) (fsck : ledgerFsck) :
  match outcome (ReadConfiguration args fsck) with
  | Returned (fsck', None) =>
      mspConfigPath fsck' ≠ "" ∧ mspID fsck' ≠ ""
      ∧ ledger fsck' = ledger fsck ∧ bundle fsck' = bundle fsck
  | Returned (fsck', Some e) =>
      (e = "MSP folder not configured" ∧ mspConfigPath fsck' = "")
      ∨ (e = "MSPID was not provided"
         ∧ mspConfigPath fsck' ≠ "" ∧ mspID fsck' = "")
  | Exited c => c = 2%Z
  | Panicked | OutOfFuel => False
  end.
Proof.
  unfold ReadConfiguration.
  destruct (flag_Parse args _) as [e|fsck'] eqn:E.
  - by destruct e.
  - apply (flag_Parse_frame (length args)) in E as [Hl Hb]; [|done].
    repeat case_bool_decide; cbn; [by left|by right|].
    by rewrite Hl, Hb.
Qed.

(** X6. Whatever the arguments, [ReadConfiguration] either returns or ends
    the process with status 2 from the flag package.  When it returns a nil
    error, the MSP folder and the MSP identity are both non-empty and the
    ledger and bundle fields are untouched; when it returns an error, that
    is "MSP folder not configured" for an empty MSP folder, and "MSPID was
    not provided" for an empty identity with a non-empty folder. *)
Theorem ReadConfiguration_validates (args : list string) (fsck : ledgerFsck) :
  match outcome (ReadConfiguration args fsck) with
  | Returned (fsck', None) =>
      mspConfigPath fsck' ≠ "" ∧ mspID fsck' ≠ ""
      ∧ ledger fsck' = ledger fsck ∧ bundle fsck' = bundle fsck
  | Returned (fsck', Some e) =>
      (e = "MSP folder not configured" ∧ mspConfigPath fsck' = "")
      ∨ (e = "MSPID was not provided"
         ∧ mspConfigPath fsck' ≠ "" ∧ mspID fsck' = "")
  | Exited c => c = 2%Z
  | Panicked | OutOfFuel => False
  end.
Proof. apply ReadConfiguration_cases. Qed.

Lemma flag_Parse_pair (double : bool) (f : FlagVar) (v : string)
    (rest : list string) (fsck : ledgerFsck) :
  flag_Parse (dashed double (flag_name f) :: v :: rest) fsck
  = flag_Parse rest (flag_Set f v fsck).
Proof. by destruct double, f. Qed.

Lemma flag_Parse_command_line (double : bool) (ps : list (FlagVar * string)) :
  ∀ fsck, flag_Parse (command_line double ps) fsck = inr (set_all ps fsck).
Proof.
  induction ps as [|[f v] ps IH]; intros fsck; [done|].
  cbn [command_line flat_map app fst snd]. rewrite flag_Parse_pair.
  apply IH.
Qed.

(** X7. On a command line made of registered flags, each followed by its
    value (any string, with one or two minus signs before the flag names),
    [ReadConfiguration] stores the values over the defaults testChannel, "",
    "" and bccsp from left to right, a later occurrence of a flag replacing
    an earlier one, and then validates the outcome: an empty MSP folder or
    an empty MSP identity is an error, anything else is accepted.  No flag is
    mandatory on the command line as such; the channel name may be left
    out. *)
Theorem ReadConfiguration_command_line (double : bool)
    (ps : list (FlagVar * string)) (fsck : ledgerFsck) :
  let final := set_all ps (with_defaults fsck) in
  outcome (ReadConfiguration (command_line double ps) fsck)
  = Returned (final,
              if bool_decide (mspConfigPath final = "")
              then Some "MSP folder not configured"
              else if bool_decide (mspID final = "")
                   then Some "MSPID was not provided"
                   else None).
Proof.
  unfold ReadConfiguration. fold (with_defaults fsck).
  rewrite flag_Parse_command_line.
  by repeat case_bool_decide.
Qed.

(** X8. Flag parsing stops at the first argument that is not a flag (one
    that does not start with a minus sign, a lone "-", or "--"), and so it
    does on an empty command line: every flag variable keeps its default,
    [ReadConfiguration] reports "MSP folder not configured", and [main]
    ends with os.Exit(-1) once the configuration was initialized. *)
Theorem arguments_after_a_non_flag_are_ignored (env : Env)
    (args : list string) (fsck : ledgerFsck) :
  (∀ s, head args = Some s → flag_body s = None) →
  ReadConfiguration args fsck
  = ([EvLog ERROR "MSP folder not configured" []],
     Returned (with_defaults fsck, Some "MSP folder not configured"))
  ∧ (common_InitConfig env "core" = None →
     main env args
     = ([EvLog ERROR "MSP folder not configured" []], Exited (-1))).
Proof.
  intros Hhead.
  assert (∀ f, flag_Parse args f = inr f) as Hparse.
  { intros f. destruct args as [|s rest]; [done|].
    cbn [flag_Parse]. by rewrite (Hhead s eq_refl). }
  assert (ReadConfiguration args fsck
          = ([EvLog ERROR "MSP folder not configured" []],
             Returned (with_defaults fsck, Some "MSP folder not configured")))
    as Hread.
  { unfold ReadConfiguration. by rewrite Hparse. }
  split; [exact Hread|].
  intros Hinit. unfold main, Initialize. rewrite Hinit.
  unfold ReadConfiguration. by rewrite Hparse.
Qed.

Lemma existsb_eqb_elem_of (x : string) (l : list string) :
  existsb (fun name => String.eqb name x) l = true ↔ x ∈ l.
Proof.
  rewrite existsb_exists, list_elem_of_In. split.
  - by intros (y & Hin & ->%String.eqb_eq).
  - intros Hin. exists x. by rewrite String.eqb_refl.
Qed.

(** When [OpenLedger] returns a nil error. *)
Lemma OpenLedger_success (env : Env) (fsck fsck' : ledgerFsck) t :
  OpenLedger env fsck = (t, Returned (fsck', None)) ↔
  ∃ signer ids l,
    LocalSigningIdentity env = Some signer
    ∧ opsSystem_Start env = None
    ∧ ledgermgmt_GetLedgerIDs env = OK ids
    ∧ channelName fsck ∈ ids
    ∧ ledgermgmt_OpenLedger env (channelName fsck) = OK l
    ∧ fsck' = set_ledger l fsck
    ∧ t = [].
Proof.
  unfold OpenLedger, ret. split.
  - destruct (LocalSigningIdentity env) as [signer|]; [|done].
    destruct (opsSystem_Start env); [done|].
    destruct (ledgermgmt_GetLedgerIDs env) as [ids|]; [|done].
    destruct (existsb _ ids) eqn:Hfound; [|done].
    apply existsb_eqb_elem_of in Hfound. cbn [negb].
    destruct (ledgermgmt_OpenLedger env _) as [l|] eqn:Hopen; [|done].
    intros [= <- <-]. by exists signer, ids, l.
  - intros (signer & ids & l & -> & -> & -> & Hin & -> & -> & ->).
    apply existsb_eqb_elem_of in Hin. by rewrite Hin.
Qed.


Lemma GetLatestChannelConfigBundle_success (env : Env) fsck t fsck' :
  GetLatestChannelConfigBundle env fsck = (t, Returned (fsck', None)) →
  ∃ b, fsck' = set_bundle b fsck ∧ capabilitiesSupported env b = true.
Proof.
  unfold GetLatestChannelConfigBundle, ret. intros E.
  repeat (case_match; simplify_eq/=); eauto.
Qed.

Lemma InitCrypto_success (env : Env) fsck t :
  InitCrypto env fsck = (t, Returned None) →
  common_InitCrypto env (mspConfigPath fsck) (mspID fsck) (mspType fsck) = None.
Proof. unfold InitCrypto. by destruct (common_InitCrypto _ _ _ _). Qed.

Lemma not_None_false {A} (o : option A) : ¬ o ≠ None → o = None.
Proof. destruct o; [|done]. intros Hn. by destruct Hn. Qed.

(** What holds of the tool's state when the set-up is through. *)
Lemma setup_state (env : Env) (args : list string) t0 fsck :
  setup env args = (t0, Returned fsck) →
  mspConfigPath fsck ≠ "" ∧ mspID fsck ≠ ""
  ∧ common_InitCrypto env (mspConfigPath fsck) (mspID fsck) (mspType fsck) = None
  ∧ (∃ ids, ledgermgmt_GetLedgerIDs env = OK ids ∧ channelName fsck ∈ ids)
  ∧ (∃ l, ledger fsck = Some l
          ∧ ledgermgmt_OpenLedger env (channelName fsck) = OK l)
  ∧ (∃ b, bundle fsck = Some b ∧ capabilitiesSupported env b = true).
Proof.
  unfold setup. intros E.
  apply bind_returned in E as (? & err & ? & _ & E & _).
  case_bool_decide; [done|].
  apply bind_returned in E as (? & [fsck1 err1] & ? & Hread & E & _).
  case_bool_decide as Herr1; [done|]. try apply not_None_false in Herr1; subst.
  apply bind_returned in E as (? & err2 & ? & Hcrypto & E & _).
  case_bool_decide as Herr2; [done|]. try apply not_None_false in Herr2; subst.
  apply bind_returned in E as (? & [fsck3 err3] & ? & Hopen & E & _).
  case_bool_decide as Herr3; [done|]. try apply not_None_false in Herr3; subst.
  apply bind_returned in E as (? & [fsck4 err4] & ? & Hbundle & E & _).
  case_bool_decide as Herr4; [done|]. try apply not_None_false in Herr4; subst.
  injection E as _ ->.
  pose proof (ReadConfiguration_cases args new_ledgerFsck) as Hcases.
  unfold outcome in Hcases. rewrite Hread in Hcases. cbn in Hcases.
  destruct Hcases as (Hp & Hi & _ & _).
  apply InitCrypto_success in Hcrypto.
  apply OpenLedger_success
    in Hopen as (signer & ids & l & _ & _ & Hids & Hin & Hl & -> & _).
  apply GetLatestChannelConfigBundle_success in Hbundle as (b & -> & Hcap).
  cbn. repeat split; try done; eauto.
Qed.

(** X10. When the set-up of [main] is through and [Verify] is about to run:
    the MSP folder and identity are non-empty and the crypto material was
    initialized with them; the channel name is one of the ledger ids; the
    ledger to audit is the one [ledgermgmt.OpenLedger] gave for that channel
    name; and a configuration bundle is in place that passed the capability
    checks. *)
Theorem Verify_runs_on_the_named_ledger (env : Env) (args : list string)
    t0 fsck :
  setup env args = (t0, Returned fsck) →
  mspConfigPath fsck ≠ "" ∧ mspID fsck ≠ ""
  ∧ common_InitCrypto env (mspConfigPath fsck) (mspID fsck) (mspType fsck) = None
  ∧ (∃ ids, ledgermgmt_GetLedgerIDs env = OK ids ∧ channelName fsck ∈ ids)
  ∧ (∃ l, ledger fsck = Some l
          ∧ ledgermgmt_OpenLedger env (channelName fsck) = OK l)
  ∧ (∃ b, bundle fsck = Some b ∧ capabilitiesSupported env b = true).
Proof. apply setup_state. Qed.

(** X11. [Height - 1] wraps: on a ledger that reports height 0,
    [getCurrConfigBlockFromLedger] asks for block 18446744073709551615 as
    the last block, and goes on from whatever the ledger answers. *)
Theorem config_block_of_an_empty_ledger (env : Env) (l : PeerLedger)
    (info : BlockchainInfo) :
  GetBlockchainInfo l = OK info →
  Height info = 0%N →
  getCurrConfigBlockFromLedger env l =
    match GetBlockByNumber l 18446744073709551615 with
    | Err err => Err err
    | OK lastBlock =>
        match GetLastConfigIndexFromBlock env lastBlock with
        | Err err => Err err
        | OK configBlockIndex => GetBlockByNumber l configBlockIndex
        end
    end.
Proof.
  intros Hinfo Hh. unfold getCurrConfigBlockFromLedger. rewrite Hinfo, Hh.
  change (uint64_dec 0) with 18446744073709551615%N.
  destruct (GetBlockByNumber l 18446744073709551615) as [lastBlock|]; [|done].
  destruct (GetLastConfigIndexFromBlock env lastBlock) as [idx|]; [|done].
  by destruct (GetBlockByNumber l idx).
Qed.

End SetupProperties.

(** ** The sweep of the audit tool, continued *)

Section SweepVerdict.
Import ledgerfsck Audit Extra.
Variable env : Env.
Variable fsck : ledgerFsck.
Variable l : PeerLedger.
Variable mcs : MCS.
Variable height : N.
Hypothesis height_uint64 : (height < uint64_modulus)%N.

#[local] Abbreviation sweep_loop := (Verify_loop env fsck l mcs height).

Lemma info_lines_app (t1 t2 : list Event) :
  info_lines (t1 ++ t2) = info_lines t1 ++ info_lines t2.
Proof. apply flat_map_app. Qed.

Lemma reads_app (t1 t2 : list Event) : reads (t1 ++ t2) = reads t1 ++ reads t2.
Proof. apply flat_map_app. Qed.

(** The loop logs no INFO line when it returns, and FAIL, once and last,
    when it ends the process. *)
Lemma loop_verdict (f : nat) : ∀ i prev,
  (height - i ≤ N.of_nat f)%N →
  (outcome (sweep_loop f i prev) = Returned tt
   ∧ info_lines (trace (sweep_loop f i prev)) = [])
  ∨ (outcome (sweep_loop f i prev) = Exited (-1)
     ∧ info_lines (trace (sweep_loop f i prev)) = ["FAIL"]
     ∧ last (trace (sweep_loop f i prev)) = Some (EvLog INFO "FAIL" [])).
Proof.
  induction f as [|f IH]; intros i prev Hf.
  - rewrite loop_done by lia. by left.
  - destruct (decide (i < height)%N) as [Hi|Hi];
      [|rewrite loop_done by lia; by left].
    rewrite (loop_step env fsck l mcs height height_uint64 f i prev Hi).
    destruct (GetBlockByNumber l i) as [b|err]; [|by right].
    destruct (bytes_Equal prev _); [|by right].
    destruct (proto_Marshal env b) as [sb|err]; [|by right].
    destruct (mcs _ _ sb) as [err|]; [by right|].
    cbn [trace outcome fst snd].
    destruct (IH (i + 1)%N (BlockHeaderHash env (Header b)))
      as [[Ho Hi']|(Ho & Hi' & Hlast)]; [lia|left|right].
    + split; [done|]. by rewrite info_lines_app, Hi'.
    + split; [done|]. split; [by rewrite info_lines_app, Hi'|].
      by rewrite last_app, Hlast.
Qed.

(** The blocks the loop asks for are [i], [i + 1], ... without a gap or a
    repetition, none at or beyond the height, and all of them up to the
    height when the loop returns. *)
Lemma loop_reads (f : nat) : ∀ i prev,
  (height - i ≤ N.of_nat f)%N →
  ∃ k : nat,
    reads (trace (sweep_loop f i prev)) = ChainVerifier.numbers i k
    ∧ (i + N.of_nat k ≤ N.max i height)%N
    ∧ (outcome (sweep_loop f i prev) = Returned tt →
       (i + N.of_nat k = N.max i height)%N).
Proof.
  induction f as [|f IH]; intros i prev Hf.
  - rewrite loop_done by lia. exists 0%nat. cbn. split; [done|]. lia.
  - destruct (decide (i < height)%N) as [Hi|Hi].
    2: { rewrite loop_done by lia. exists 0%nat. cbn. split; [done|]. lia. }
    rewrite (loop_step env fsck l mcs height height_uint64 f i prev Hi).
    destruct (GetBlockByNumber l i) as [b|err];
      [|exists 1%nat; cbn; split; [done|]; split; [lia|done]].
    destruct (bytes_Equal prev _);
      [|exists 1%nat; cbn; split; [done|]; split; [lia|done]].
    destruct (proto_Marshal env b) as [sb|err];
      [|exists 1%nat; cbn; split; [done|]; split; [lia|done]].
    destruct (mcs _ _ sb) as [err|];
      [exists 1%nat; cbn; split; [done|]; split; [lia|done]|].
    cbn [trace outcome fst snd].
    destruct (IH (i + 1)%N (BlockHeaderHash env (Header b)))
      as (k & Hk & Hle & Hret); [lia|].
    exists (S k). rewrite reads_app, Hk. cbn [ChainVerifier.numbers].
    rewrite <- N.add_1_r. split; [done|]. split; [lia|].
    intros Ho. specialize (Hret Ho). lia.
Qed.

End SweepVerdict.

Section VerdictProperties.
Import ledgerfsck Audit Extra.
Variable env : Env.
Variable fsck : ledgerFsck.
Variable l : PeerLedger.
Variable signer : SigningIdentity.
Hypothesis opened : ledger fsck = Some l.
Hypothesis signer_ok : LocalSigningIdentity env = Some signer.
Hypothesis heights_uint64 :
  ∀ info, GetBlockchainInfo l = OK info → (Height info < uint64_modulus)%N.

(** [Verify] gives one verdict, and gives it last. *)
Lemma Verify_one_verdict :
  (outcome (Verify env fsck) = Returned tt
   ∧ info_lines (trace (Verify env fsck)) = ["PASS"]
   ∧ last (trace (Verify env fsck)) = Some (EvLog INFO "PASS" []))
  ∨ (outcome (Verify env fsck) = Exited (-1)
     ∧ info_lines (trace (Verify env fsck)) = ["FAIL"]
     ∧ last (trace (Verify env fsck)) = Some (EvLog INFO "FAIL" [])).
Proof.
  destruct (GetBlockchainInfo l) as [info|err] eqn:Hinfo.
  2: { right. unfold Verify. by rewrite opened, Hinfo. }
  rewrite (Verify_unfold env fsck l info signer opened Hinfo signer_ok).
  destruct (GetBlockByNumber l 0) as [b0|err]; [|by right].
  cbn [trace outcome fst snd].
  destruct (loop_verdict env fsck l (gossip_NewMCS env (bundle fsck) signer)
              (Height info) (heights_uint64 info eq_refl)
              (N.to_nat (Height info)) 1%N (BlockHeaderHash env (Header b0)))
    as [[Ho Hi]|(Ho & Hi & Hlast)]; [lia|left|right]; rewrite Ho.
  - split; [done|]. rewrite !info_lines_app, Hi. split; [done|].
    rewrite app_assoc. apply last_snoc.
  - split; [done|]. rewrite app_nil_r, info_lines_app, Hi. split; [done|].
    by rewrite last_app, Hlast.
Qed.

(** X12. Once the ledger is open and the signing identity is there,
    [Verify] gives exactly one verdict and gives it last: either it logs
    PASS as its only INFO line and last event and returns, or it logs FAIL
    as its only INFO line and last event and ends the process with
    os.Exit(-1).  It never returns after a FAIL and never exits after a
    PASS. *)
Theorem Verify_verdict :
  (outcome (Verify env fsck) = Returned tt
   ∧ info_lines (trace (Verify env fsck)) = ["PASS"]
   ∧ last (trace (Verify env fsck)) = Some (EvLog INFO "PASS" []))
  ∨ (outcome (Verify env fsck) = Exited (-1)
     ∧ info_lines (trace (Verify env fsck)) = ["FAIL"]
     ∧ last (trace (Verify env fsck)) = Some (EvLog INFO "FAIL" [])).
Proof. apply Verify_one_verdict. Qed.

(** X13. [Verify] asks the ledger for blocks 0, 1, 2, ... in this order,
    each once and without a gap, and for none at or beyond the height
    (except that block 0 is read even when the height is 0).  When it
    returns it has read every block below the height. *)
Theorem Verify_reads_an_initial_segment (info : BlockchainInfo) :
  GetBlockchainInfo l = OK info →
  ∃ k : nat,
    reads (trace (Verify env fsck)) = ChainVerifier.numbers 0 k
    ∧ (1 ≤ N.of_nat k ≤ N.max 1 (Height info))%N
    ∧ (outcome (Verify env fsck) = Returned tt →
       N.of_nat k = N.max 1 (Height info)).
Proof.
  intros Hinfo.
  rewrite (Verify_unfold env fsck l info signer opened Hinfo signer_ok).
  destruct (GetBlockByNumber l 0) as [b0|err].
  2: { exists 1%nat. cbn. split; [done|]. split; [lia|done]. }
  cbn [trace outcome fst snd].
  destruct (loop_reads env fsck l (gossip_NewMCS env (bundle fsck) signer)
              (Height info) (heights_uint64 info Hinfo)
              (N.to_nat (Height info)) 1%N (BlockHeaderHash env (Header b0)))
    as (k & Hk & Hle & Hret); [lia|].
  exists (S k). cbn. rewrite !reads_app, Hk.
  replace (reads _) with (@nil N) by (by destruct (outcome _)).
  rewrite app_nil_r. split; [done|]. split; [lia|].
  intros Ho. specialize (Hret Ho). lia.
Qed.

End VerdictProperties.

(** ** The exit status of the audit tool *)

Section MainProperties.
Import ledgerfsck Audit Extra.

Lemma quiet_ret {A} (a : A) : quiet (ret a).
Proof. by split. Qed.

Lemma quiet_panic {A} : quiet (@panic A).
Proof. by split. Qed.

Lemma quiet_exit_minus_1 {A} : quiet (@os_Exit A (-1)).
Proof. split; [done|]. by right. Qed.

Lemma quiet_exit_2 {A} : quiet (@os_Exit A 2).
Proof. split; [done|]. by left. Qed.

Lemma quiet_log (lvl : Level) (format : string) (args : list Arg) :
  lvl ≠ INFO → quiet (emit (EvLog lvl format args)).
Proof. intros Hl. split; [|done]. by destruct lvl. Qed.

Lemma quiet_stderr (format : string) (args : list Arg) :
  quiet (emit (EvStderr format args)).
Proof. by split. Qed.

Lemma quiet_bind {A B} (m : Proc A) (f : A → Proc B) :
  quiet m → (∀ a, quiet (f a)) → quiet (bind m f).
Proof.
  destruct m as [t [a| | |]]; intros [Ht Ho] Hf; try done.
  destruct (Hf a) as [Hft Hfo]. unfold quiet. rewrite bind_emitted.
  cbn [trace outcome fst snd] in *. split; [|done].
  by rewrite info_lines_app, Ht, Hft.
Qed.

#[local] Ltac quiet_step :=
  first
    [ apply quiet_ret | apply quiet_panic | apply quiet_exit_minus_1
    | apply quiet_exit_2 | apply quiet_stderr
    | apply quiet_log; discriminate
    | apply quiet_bind; [|intros ?] ].

Lemma quiet_Initialize (env : Env) fsck : quiet (Initialize env fsck).
Proof.
  unfold Initialize, Errorf.
  destruct (common_InitConfig env "core"); repeat quiet_step.
Qed.

Lemma quiet_ReadConfiguration args fsck : quiet (ReadConfiguration args fsck).
Proof.
  unfold ReadConfiguration, report, Errorf, Debugf.
  destruct (flag_Parse args _) as [[]|]; repeat case_bool_decide;
    repeat quiet_step.
Qed.

Lemma quiet_InitCrypto (env : Env) fsck : quiet (InitCrypto env fsck).
Proof.
  unfold InitCrypto, Errorf.
  destruct (common_InitCrypto env _ _ _); repeat quiet_step.
Qed.

Lemma quiet_OpenLedger (env : Env) fsck : quiet (OpenLedger env fsck).
Proof.
  unfold OpenLedger, Errorf.
  repeat case_match; repeat quiet_step.
Qed.

Lemma quiet_GetLatestChannelConfigBundle (env : Env) fsck :
  quiet (GetLatestChannelConfigBundle env fsck).
Proof.
  unfold GetLatestChannelConfigBundle, Errorf, Debugf, Warningf.
  repeat case_match; repeat quiet_step.
Qed.

(** The set-up gives no verdict. *)
Lemma quiet_setup (env : Env) (args : list string) : quiet (setup env args).
Proof.
  unfold setup.
  apply quiet_bind; [apply quiet_Initialize|intros err].
  case_bool_decide; [apply quiet_exit_minus_1|].
  apply quiet_bind; [apply quiet_ReadConfiguration|intros [fsck1 err1]].
  case_bool_decide; [apply quiet_exit_minus_1|].
  apply quiet_bind; [apply quiet_InitCrypto|intros err2].
  case_bool_decide; [apply quiet_exit_minus_1|].
  apply quiet_bind; [apply quiet_OpenLedger|intros [fsck3 err3]].
  case_bool_decide; [apply quiet_exit_minus_1|].
  apply quiet_bind; [apply quiet_GetLatestChannelConfigBundle|intros [fsck4 err4]].
  case_bool_decide; [apply quiet_exit_minus_1|].
  apply quiet_ret.
Qed.

(** A run of [main]: either the set-up ends it, without a verdict, or
    [Verify] gives its verdict after it. *)
Lemma main_cases (env : Env) (args : list string) :
  uint64_heights env →
  (info_lines (trace (main env args)) = []
   ∧ (exit_status (outcome (main env args)) = Some 2%Z
      ∨ exit_status (outcome (main env args)) = Some 255%Z))
  ∨ (info_lines (trace (main env args)) = ["PASS"]
     ∧ last (trace (main env args)) = Some (EvLog INFO "PASS" [])
     ∧ exit_status (outcome (main env args)) = Some 0%Z)
  ∨ (info_lines (trace (main env args)) = ["FAIL"]
     ∧ last (trace (main env args)) = Some (EvLog INFO "FAIL" [])
     ∧ exit_status (outcome (main env args)) = Some 255%Z).
Proof.
  intros Hu64. rewrite main_setup_Verify.
  destruct (quiet_setup env args) as [Hquiet Hends].
  destruct (setup env args) as [t0 [fsck| | |]] eqn:Hsetup;
    cbn [trace outcome fst snd] in *.
  - destruct (setup_state env args t0 fsck Hsetup)
      as (_ & _ & _ & _ & (l & Hl & Hopen) & _).
    destruct (setup_returned env args t0 fsck Hsetup)
      as (l' & info & signer & Hl' & _ & Hs).
    assert (∀ info, GetBlockchainInfo l = OK info →
                    (Height info < uint64_modulus)%N) as Hh
      by (intros i Hi; by apply (Hu64 _ _ _ Hopen Hi)).
    rewrite bind_emitted. cbn [trace outcome fst snd].
    rewrite info_lines_app, Hquiet, last_app.
    destruct (Verify_one_verdict env fsck l signer Hl Hs Hh)
      as [(-> & -> & ->)|(-> & -> & ->)]; [right; left|right; right]; done.
  - left. split; [done|]. destruct Hends as [-> | ->]; [by left|by right].
  - left. split; [done|]. by left.
  - done.
Qed.

(** X14. If the ledgers report uint64 heights, a run of the tool ends with
    exit status 0, 2 or 255, and the status agrees with the verdict: it is 0
    exactly when PASS was logged (then as the only INFO line and the last
    event of the run), and 255 whenever FAIL was logged.  A run that the
    set-up ends logs neither and exits with 2 (flag error or panic) or
    255. *)
Theorem exit_status_agrees_with_verdict (env : Env) (args : list string) :
  uint64_heights env →
  (exit_status (outcome (main env args)) = Some 0%Z
   ∨ exit_status (outcome (main env args)) = Some 2%Z
   ∨ exit_status (outcome (main env args)) = Some 255%Z)
  ∧ (exit_status (outcome (main env args)) = Some 0%Z ↔
       info_lines (trace (main env args)) = ["PASS"])
  ∧ (exit_status (outcome (main env args)) = Some 0%Z →
       last (trace (main env args)) = Some (EvLog INFO "PASS" []))
  ∧ (info_lines (trace (main env args)) = ["FAIL"] →
       exit_status (outcome (main env args)) = Some 255%Z)
  ∧ (info_lines (trace (main env args)) = []
     ∨ info_lines (trace (main env args)) = ["PASS"]
     ∨ info_lines (trace (main env args)) = ["FAIL"]).
Proof.
  intros Hu64.
  destruct (main_cases env args Hu64)
    as [[Hi [Hs|Hs]]|[(Hi & Hl & Hs)|(Hi & Hl & Hs)]];
    rewrite Hi, Hs; repeat split; try done; eauto; try (intros; congruence).
Qed.

End MainProperties.

(** ** Blocks whose signature cannot be checked *)

Section SignatureFailure.
Import ledgerfsck Audit Extra.
Variable env : Env.
Variable fsck : ledgerFsck.
Variable l : PeerLedger.
Variable info : BlockchainInfo.
Variable signer : SigningIdentity.
Variable b0 : Block.
Hypothesis opened : ledger fsck = Some l.
Hypothesis info_ok : GetBlockchainInfo l = OK info.
Hypothesis signer_ok : LocalSigningIdentity env = Some signer.
Hypothesis height_uint64 : (Height info < uint64_modulus)%N.
Hypothesis genesis_ok : GetBlockByNumber l 0 = OK b0.

#[local] Abbreviation service := (gossip_NewMCS env (bundle fsck) signer).

(** X15. If block n is the first block that does not pass and its previous
    hash does match, so that it is its signature that cannot be checked
    (the block does not marshal, or VerifyBlock, called with the number in
    the block's own header, returns an error), then the run of [Verify]
    ends with the start of that check, the line saying which of the two
    went wrong (the verification line carries the loop index n and the
    error), and FAIL; the process ends with os.Exit(-1), and nothing before
    is about a block beyond n. *)
Theorem signature_failure_stops_the_audit (n : N) (b bp : Block) :
  (1 ≤ n < Height info)%N →
  (∀ m, (1 ≤ m < n)%N → passes env fsck l service m = true) →
  GetBlockByNumber l (n - 1) = OK bp →
  GetBlockByNumber l n = OK b →
  PreviousHash (Header b) = BlockHeaderHash env (Header bp) →
  ChainVerifier.signature_ok env (channelName fsck) service b = false →
  ∃ tv line,
    signature_line env fsck service n b = Some line
    ∧ trace (Verify env fsck) = tv ++ [EvVerify n b; line; EvLog INFO "FAIL" []]
    ∧ (∀ e m, e ∈ tv → block_of e = Some m → (m ≤ n)%N)
    ∧ outcome (Verify env fsck) = Exited (-1)
    ∧ exit_status (outcome (Verify env fsck)) = Some 255%Z.
Proof.
  intros Hn Hpass Hbp Hb Hprev Hsig.
  assert (prevHash_at env l n = BlockHeaderHash env (Header bp)) as Hexp.
  { unfold prevHash_at. replace (N.pred n) with (n - 1)%N by lia.
    by rewrite Hbp. }
  rewrite (Verify_unfold env fsck l info signer opened info_ok signer_ok).
  rewrite genesis_ok. cbn [trace outcome fst snd].
  rewrite (genesis_hash env l b0 genesis_ok).
  replace (N.to_nat (Height info))
    with (N.to_nat (n - 1) + S (N.to_nat (Height info - n)))%nat by lia.
  rewrite (loop_passing env fsck l service (Height info) height_uint64);
    [|lia|intros m Hm; apply Hpass; lia].
  replace (1 + N.of_nat (N.to_nat (n - 1)))%N with n by lia.
  rewrite (loop_step env fsck l service (Height info) height_uint64) by lia.
  rewrite Hb, Hexp, <- Hprev.
  assert (bytes_Equal (PreviousHash (Header b)) (PreviousHash (Header b)) = true)
    as -> by by apply bytes_Equal_eq.
  set (pre := [EvLog DEBUG "ledger height of channel %s, is %d\n"
                     [AString (channelName fsck); AUint (Height info)];
               EvRead 0; EvSetPrevHash (prevHash_at env l 1)]
              ++ flat_map (passing_iteration env l)
                   (ChainVerifier.numbers 1 (N.to_nat (n - 1)))
              ++ [EvRead n;
                  EvCompare n (PreviousHash (Header b)) (PreviousHash (Header b));
                  EvLog DEBUG "block number [%d]: previous hash matched"
                        [AUint n]]).
  assert (∀ e m, e ∈ pre → block_of e = Some m → (m ≤ n)%N) as Hpre.
  { intros e m. unfold pre.
    rewrite !elem_of_app, !elem_of_cons, !elem_of_nil.
    intros [[->|[->|[->|[]]]]|[Hin|[->|[->|[->|[]]]]]] Hm;
      try discriminate; try (injection Hm as <-; lia).
    pose proof (passing_prefix_blocks env l _ _ _ _ Hin Hm). lia. }
  unfold ChainVerifier.signature_ok in Hsig. unfold signature_line.
  destruct (proto_Marshal env b) as [sb|err].
  - destruct (service _ _ sb) as [err|]; [|done].
    cbn [trace outcome fst snd]. exists pre. eexists. split; [done|].
    split; [|done]. unfold pre. by rewrite app_nil_r, <- !app_assoc.
  - cbn [trace outcome fst snd]. exists pre. eexists. split; [done|].
    split; [|done]. unfold pre. by rewrite app_nil_r, <- !app_assoc.
Qed.

End SignatureFailure.

(** ** Package node: the chaincode endpoint and the admin listener *)

Section NodeProperties.
Import ledgerfsck node.
Context {V : Type} {registry : Viper V}.
Variable net : Net.
Implicit Types (cfg : V) (peerHostname ep : string).

#[local] Abbreviation unspecified := (parses_unspecified net).
#[local] Abbreviation address_of cfg := (viper_GetString cfg chaincodeAddrKey).
#[local] Abbreviation listen_of cfg := (viper_GetString cfg chaincodeListenAddrKey).

(** Where a computed endpoint comes from. *)
Lemma computeChaincodeEndpoint_sources cfg peerHostname ep :
  outcome (computeChaincodeEndpoint net cfg peerHostname) = Returned (OK ep) →
  (address_of cfg ≠ "" ∧ ep = address_of cfg
   ∧ ∃ host port, SplitHostPort net ep = OK (host, port)
                  ∧ unspecified host = false)
  ∨ (address_of cfg = "" ∧ listen_of cfg ≠ "" ∧ ep = listen_of cfg
     ∧ ∃ host port, SplitHostPort net ep = OK (host, port)
                    ∧ unspecified host = false)
  ∨ (address_of cfg = "" ∧ unspecified peerHostname = false
     ∧ ((listen_of cfg = "" ∧ ep = peerHostname +:+ ":7052")
        ∨ (∃ host port, SplitHostPort net (listen_of cfg) = OK (host, port)
                        ∧ unspecified host = true
                        ∧ ep = peerHostname +:+ ":" +:+ port))).
Proof.
  unfold computeChaincodeEndpoint, Infof, Errorf.
  case_bool_decide as Ha.
  - case_bool_decide as Hl.
    + destruct (unspecified peerHostname) eqn:Hp; cbn; [done|].
      intros [= <-]. right; right. split; [done|]. split; [done|]. by left.
    + destruct (SplitHostPort net (listen_of cfg)) as [[host port]|err] eqn:Hs;
        [|done].
      destruct (unspecified host) eqn:Hh.
      * destruct (unspecified peerHostname) eqn:Hp; cbn; [done|].
        intros [= <-]. right; right. split; [done|]. split; [done|].
        right. by exists host, port.
      * cbn. intros [= <-]. right; left. repeat split; try done.
        by exists host, port.
  - destruct (SplitHostPort net (address_of cfg)) as [[host port]|err] eqn:Hs;
      [|done].
    destruct (unspecified host) eqn:Hh; cbn; [done|].
    intros [= <-]. left. repeat split; try done. by exists host, port.
Qed.

(** X16. An endpoint that [computeChaincodeEndpoint] returns never names an
    unspecified address (0.0.0.0 or ::).  It is the configured chaincode
    address, or else the configured chaincode listen address, in both cases
    with a host that is not unspecified; or else it is the peer's host name,
    itself not unspecified, with port 7052 when no listen address is
    configured and with the port of the listen address when that address is
    unspecified. *)
Theorem chaincode_endpoint_is_never_unspecified cfg peerHostname ep :
  outcome (computeChaincodeEndpoint net cfg peerHostname) = Returned (OK ep) →
  (address_of cfg ≠ "" ∧ ep = address_of cfg
   ∧ ∃ host port, SplitHostPort net ep = OK (host, port)
                  ∧ unspecified host = false)
  ∨ (address_of cfg = "" ∧ listen_of cfg ≠ "" ∧ ep = listen_of cfg
     ∧ ∃ host port, SplitHostPort net ep = OK (host, port)
                    ∧ unspecified host = false)
  ∨ (address_of cfg = "" ∧ unspecified peerHostname = false
     ∧ ((listen_of cfg = "" ∧ ep = peerHostname +:+ ":7052")
        ∨ (∃ host port, SplitHostPort net (listen_of cfg) = OK (host, port)
                        ∧ unspecified host = true
                        ∧ ep = peerHostname +:+ ":" +:+ port))).
Proof. apply computeChaincodeEndpoint_sources. Qed.

(** X17. A configured chaincode address takes precedence: when
    peer.chaincodeAddress is set, what [computeChaincodeEndpoint] returns
    depends on nothing else, neither on the peer's host name nor on any
    other key of the configuration. *)
Theorem chaincode_address_takes_precedence cfg cfg' peerHostname peerHostname' :
  address_of cfg ≠ "" →
  address_of cfg' = address_of cfg →
  outcome (computeChaincodeEndpoint net cfg peerHostname)
  = outcome (computeChaincodeEndpoint net cfg' peerHostname').
Proof.
  intros Ha Heq. unfold computeChaincodeEndpoint, Infof, Errorf.
  rewrite Heq. rewrite (bool_decide_eq_false_2 _ Ha).
  destruct (SplitHostPort net (address_of cfg)) as [[host port]|err]; [|done].
  by destruct (unspecified host).
Qed.

(** X18. With no chaincode address configured and a peer host name that is
    an unspecified address, [computeChaincodeEndpoint] succeeds only through
    a listen address with a host of its own: it returns the listen address
    when that splits and its host is not unspecified, the split error when
    it does not split, and "invalid endpoint for chaincode to connect" in
    all other cases (no listen address, or an unspecified one). *)
Theorem unspecified_peer_needs_a_listen_address cfg peerHostname :
  address_of cfg = "" →
  unspecified peerHostname = true →
  outcome (computeChaincodeEndpoint net cfg peerHostname)
  = Returned
      (if bool_decide (listen_of cfg = "")
       then Err "invalid endpoint for chaincode to connect"
       else match SplitHostPort net (listen_of cfg) with
            | Err err => Err err
            | OK (host, _) =>
                if unspecified host
                then Err "invalid endpoint for chaincode to connect"
                else OK (listen_of cfg)
            end).
Proof.
  intros Ha Hp. unfold computeChaincodeEndpoint, Infof, Errorf.
  rewrite Ha, Hp. rewrite bool_decide_eq_true_2 by done.
  case_bool_decide; [done|].
  destruct (SplitHostPort net (listen_of cfg)) as [[host port]|err]; [|done].
  by destruct (unspecified host).
Qed.


End NodeProperties.

(** ** What a PASS means *)

Section Soundness.
Import ledgerfsck Audit Extra.
Variable env : Env.
Variable fsck : ledgerFsck.
Variable l : PeerLedger.
Variable info : BlockchainInfo.
Variable signer : SigningIdentity.
Hypothesis opened : ledger fsck = Some l.
Hypothesis info_ok : GetBlockchainInfo l = OK info.
Hypothesis signer_ok : LocalSigningIdentity env = Some signer.
Hypothesis height_uint64 : (Height info < uint64_modulus)%N.

#[local] Abbreviation checker := (gossip_NewMCS env (bundle fsck) signer).

(** If the loop returns, every block it was to look at passes. *)
Lemma loop_returned_passes (f : nat) : ∀ i,
  (Height info - i ≤ N.of_nat f)%N →
  outcome (Verify_loop env fsck l checker (Height info) f i (prevHash_at env l i))
    = Returned tt →
  ∀ m, (i ≤ m < Height info)%N → passes env fsck l checker m = true.
Proof.
  induction f as [|f IH]; intros i Hf Hret m Hm; [lia|].
  revert Hret.
  rewrite (loop_step env fsck l checker (Height info) height_uint64) by lia.
  destruct (GetBlockByNumber l i) as [b|err] eqn:Hb; [|done].
  destruct (bytes_Equal _ _) eqn:Heq; [|done].
  destruct (proto_Marshal env b) as [sb|err] eqn:Hmar; [|done].
  destruct (checker _ _ sb) as [err|] eqn:Hver; [done|].
  cbn [outcome snd]. rewrite <- (prevHash_at_succ env l i b Hb). intros Hret.
  destruct (decide (m = i)) as [->|Hne].
  - unfold passes, ChainVerifier.signature_ok. by rewrite Hb, Heq, Hmar, Hver.
  - apply (IH (i + 1)%N); [lia|done|lia].
Qed.

(** X20. A PASS is sound and complete for the ledger as read: [Verify]
    returns (and, by its verdict, logs PASS) exactly when block 0 can be
    read and every block n from 1 to height - 1 can be read, carries the
    header hash of block n - 1 as its previous hash, marshals, and is
    accepted by VerifyBlock. *)
Theorem Verify_passes_iff_all_blocks_pass :
  outcome (Verify env fsck) = Returned tt ↔
  (∃ b0, GetBlockByNumber l 0 = OK b0)
  ∧ ∀ n, (1 ≤ n < Height info)%N → passes env fsck l checker n = true.
Proof.
  rewrite (Verify_unfold env fsck l info signer opened info_ok signer_ok).
  split.
  - destruct (GetBlockByNumber l 0) as [b0|err] eqn:H0; [|done].
    cbn [outcome snd]. rewrite (genesis_hash env l b0 H0). intros Hret.
    split; [by exists b0|].
    apply (loop_returned_passes (N.to_nat (Height info)) 1%N); [lia|done].
  - intros [[b0 H0] Hpass]. rewrite H0. cbn [outcome snd].
    destruct (sweep_all_pass env fsck l info signer b0 height_uint64 H0 Hpass)
      as [t ->]. done.
Qed.

End Soundness.

(** ** The further properties at the sample inputs *)

Section MoreInstances.
Import ledgerfsck Audit Extra Samples blockarchive node.

Lemma purge_interval_positive_witness :
  is_int (viper_GetInt cfg_pvtdata "ledger.pvtdataStore.purgeInterval")
  ∧ (0 < ledgerconfig.GetPvtdataStorePurgeInterval cfg_pvtdata < 2 ^ 63)%N
  ∧ Z.of_N (ledgerconfig.GetPvtdataStorePurgeInterval cfg_pvtdata) = 25%Z.
Proof.
  assert (is_int (viper_GetInt cfg_pvtdata "ledger.pvtdataStore.purgeInterval"))
    as Hint by (by vm_compute).
  split; [exact Hint|].
  exact (purge_interval_positive cfg_pvtdata Hint).
Defined.

Lemma join_inj (root a b : string) : join root a = join root b → a = b.
Proof.
  unfold join. induction root as [|c root IH]; cbn.
  - intros [= E]. exact E.
  - intros [= E]. by apply IH.
Defined.

Lemma ledger_paths_distinct_witness :
  (∀ a b, a ∈ ledger_directories → b ∈ ledger_directories →
          join (ledgerconfig.GetRootPath join cfg_unset) a
          = join (ledgerconfig.GetRootPath join cfg_unset) b → a = b)
  ∧ NoDup [ledgerconfig.GetLedgerProviderPath join cfg_unset;
           ledgerconfig.GetStateLevelDBPath join cfg_unset;
           ledgerconfig.GetHistoryLevelDBPath join cfg_unset;
           ledgerconfig.GetBlockStorePath join cfg_unset;
           ledgerconfig.GetPvtdataStorePath join cfg_unset;
           ledgerconfig.GetInternalBookkeeperPath join cfg_unset;
           ledgerconfig.GetConfigHistoryPath join cfg_unset;
           ledgerconfig.GetCouchdbRedologsPath join cfg_unset].
Proof.
  assert (∀ a b, a ∈ ledger_directories → b ∈ ledger_directories →
                 join (ledgerconfig.GetRootPath join cfg_unset) a
                 = join (ledgerconfig.GetRootPath join cfg_unset) b → a = b)
    as Hinj by (intros a b _ _; apply join_inj).
  split; [exact Hinj|].
  exact (ledger_paths_distinct join cfg_unset Hinj).
Defined.

Lemma arguments_after_a_non_flag_are_ignored_witness :
  (∀ s, head args_positional = Some s → flag_body s = None)
  ∧ common_InitConfig env3 "core" = None
  ∧ ReadConfiguration args_positional new_ledgerFsck
    = ([EvLog ERROR "MSP folder not configured" []],
       Returned (with_defaults new_ledgerFsck, Some "MSP folder not configured"))
  ∧ main env3 args_positional
    = ([EvLog ERROR "MSP folder not configured" []], Exited (-1)).
Proof.
  assert (∀ s, head args_positional = Some s → flag_body s = None) as Hhead
    by (by intros s [= <-]).
  split; [exact Hhead|]. split; [reflexivity|].
  pose proof (arguments_after_a_non_flag_are_ignored env3 args_positional
                new_ledgerFsck Hhead) as [Hread Hmain].
  split; [exact Hread|exact (Hmain eq_refl)].
Defined.

Lemma Verify_runs_on_the_named_ledger_witness :
  setup env3 args_code = (trace (setup env3 args_code), Returned fsck3)
  ∧ mspConfigPath fsck3 ≠ "" ∧ mspID fsck3 ≠ ""
  ∧ common_InitCrypto env3 (mspConfigPath fsck3) (mspID fsck3) (mspType fsck3)
    = None
  ∧ (∃ ids, ledgermgmt_GetLedgerIDs env3 = OK ids ∧ channelName fsck3 ∈ ids)
  ∧ (∃ l, ledger fsck3 = Some l
          ∧ ledgermgmt_OpenLedger env3 (channelName fsck3) = OK l)
  ∧ (∃ b, bundle fsck3 = Some b ∧ capabilitiesSupported env3 b = true).
Proof.
  split; [reflexivity|].
  exact (Verify_runs_on_the_named_ledger env3 args_code
           (trace (setup env3 args_code)) fsck3 eq_refl).
Defined.

Lemma config_block_of_an_empty_ledger_witness :
  GetBlockchainInfo (good_ledger 0) = OK (info_of 0)
  ∧ Height (info_of 0) = 0%N
  ∧ getCurrConfigBlockFromLedger env1 (good_ledger 0) = Err "not found".
Proof.
  split; [reflexivity|]. split; [reflexivity|].
  exact (config_block_of_an_empty_ledger env1 (good_ledger 0) (info_of 0)
           eq_refl eq_refl).
Defined.

Lemma heights_3 (info : BlockchainInfo) :
  GetBlockchainInfo (good_ledger 3) = OK info →
  (Height info < uint64_modulus)%N.
Proof. by intros [= <-]. Defined.

Lemma Verify_verdict_witness :
  ledger fsck3 = Some (good_ledger 3)
  ∧ LocalSigningIdentity env3 = Some (MkSigner [x01])
  ∧ ((outcome (Verify env3 fsck3) = Returned tt
      ∧ info_lines (trace (Verify env3 fsck3)) = ["PASS"]
      ∧ last (trace (Verify env3 fsck3)) = Some (EvLog INFO "PASS" []))
     ∨ (outcome (Verify env3 fsck3) = Exited (-1)
        ∧ info_lines (trace (Verify env3 fsck3)) = ["FAIL"]
        ∧ last (trace (Verify env3 fsck3)) = Some (EvLog INFO "FAIL" []))).
Proof.
  split; [reflexivity|]. split; [reflexivity|].
  exact (Verify_verdict env3 fsck3 (good_ledger 3) (MkSigner [x01])
           eq_refl eq_refl heights_3).
Defined.

Lemma Verify_reads_an_initial_segment_witness :
  GetBlockchainInfo (good_ledger 3) = OK (info_of 3)
  ∧ ∃ k : nat,
      reads (trace (Verify env3 fsck3)) = ChainVerifier.numbers 0 k
      ∧ (1 ≤ N.of_nat k ≤ N.max 1 3)%N
      ∧ (outcome (Verify env3 fsck3) = Returned tt → N.of_nat k = N.max 1 3).
Proof.
  split; [reflexivity|].
  exact (Verify_reads_an_initial_segment env3 fsck3 (good_ledger 3)
           (MkSigner [x01]) eq_refl eq_refl heights_3 (info_of 3) eq_refl).
Defined.

Lemma uint64_heights_3 : uint64_heights env3.
Proof. by intros c l info [= <-] [= <-]. Defined.

Lemma exit_status_agrees_with_verdict_witness :
  uint64_heights env3
  ∧ (exit_status (outcome (main env3 args_code)) = Some 0%Z
     ∨ exit_status (outcome (main env3 args_code)) = Some 2%Z
     ∨ exit_status (outcome (main env3 args_code)) = Some 255%Z)
  ∧ (exit_status (outcome (main env3 args_code)) = Some 0%Z ↔
       info_lines (trace (main env3 args_code)) = ["PASS"])
  ∧ (exit_status (outcome (main env3 args_code)) = Some 0%Z →
       last (trace (main env3 args_code)) = Some (EvLog INFO "PASS" []))
  ∧ (info_lines (trace (main env3 args_code)) = ["FAIL"] →
       exit_status (outcome (main env3 args_code)) = Some 255%Z)
  ∧ (info_lines (trace (main env3 args_code)) = []
     ∨ info_lines (trace (main env3 args_code)) = ["PASS"]
     ∨ info_lines (trace (main env3 args_code)) = ["FAIL"]).
Proof.
  split; [exact uint64_heights_3|].
  exact (exit_status_agrees_with_verdict env3 args_code uint64_heights_3).
Defined.

Lemma passes_before_2 (m : N) :
  (1 ≤ m < 2)%N →
  passes env_bad_signature fsck4 (good_ledger 4)
         (gossip_NewMCS env_bad_signature (bundle fsck4) (MkSigner [x01])) m
  = true.
Proof. intros Hm. assert (m = 1)%N as -> by lia. reflexivity. Defined.

Lemma signature_failure_stops_the_audit_witness :
  (1 ≤ 2 < Height (info_of 4))%N
  ∧ GetBlockByNumber (good_ledger 4) 1 = OK (block 1)
  ∧ GetBlockByNumber (good_ledger 4) 2 = OK (block 2)
  ∧ PreviousHash (Header (block 2)) = hash (Header (block 1))
  ∧ ChainVerifier.signature_ok env_bad_signature (channelName fsck4)
      (gossip_NewMCS env_bad_signature (bundle fsck4) (MkSigner [x01]))
      (block 2) = false
  ∧ ∃ tv line,
      signature_line env_bad_signature fsck4
        (gossip_NewMCS env_bad_signature (bundle fsck4) (MkSigner [x01]))
        2 (block 2) = Some line
      ∧ trace (Verify env_bad_signature fsck4)
        = tv ++ [EvVerify 2 (block 2); line; EvLog INFO "FAIL" []]
      ∧ (∀ e m, e ∈ tv → block_of e = Some m → (m ≤ 2)%N)
      ∧ outcome (Verify env_bad_signature fsck4) = Exited (-1)
      ∧ exit_status (outcome (Verify env_bad_signature fsck4)) = Some 255%Z.
Proof.
  assert (1 ≤ 2 < Height (info_of 4))%N as Hn by (cbn; lia).
  split; [exact Hn|]. do 4 (split; [reflexivity|]).
  exact (signature_failure_stops_the_audit env_bad_signature fsck4
           (good_ledger 4) (info_of 4) (MkSigner [x01]) (block 0)
           eq_refl eq_refl eq_refl eq_refl eq_refl
           2%N (block 2) (block 1) Hn passes_before_2
           eq_refl eq_refl eq_refl eq_refl).
Defined.

Lemma chaincode_endpoint_is_never_unspecified_witness :
  outcome (computeChaincodeEndpoint net cfg_listen_any "peer0")
    = Returned (OK "peer0:7999")
  ∧ ((viper_GetString cfg_listen_any chaincodeAddrKey ≠ ""
      ∧ "peer0:7999" = viper_GetString cfg_listen_any chaincodeAddrKey
      ∧ ∃ host port, SplitHostPort net "peer0:7999" = OK (host, port)
                     ∧ parses_unspecified net host = false)
     ∨ (viper_GetString cfg_listen_any chaincodeAddrKey = ""
        ∧ viper_GetString cfg_listen_any chaincodeListenAddrKey ≠ ""
        ∧ "peer0:7999" = viper_GetString cfg_listen_any chaincodeListenAddrKey
        ∧ ∃ host port, SplitHostPort net "peer0:7999" = OK (host, port)
                       ∧ parses_unspecified net host = false)
     ∨ (viper_GetString cfg_listen_any chaincodeAddrKey = ""
        ∧ parses_unspecified net "peer0" = false
        ∧ ((viper_GetString cfg_listen_any chaincodeListenAddrKey = ""
            ∧ "peer0:7999" = "peer0" +:+ ":7052")
           ∨ (∃ host port,
                SplitHostPort net
                  (viper_GetString cfg_listen_any chaincodeListenAddrKey)
                = OK (host, port)
                ∧ parses_unspecified net host = true
                ∧ "peer0:7999" = "peer0" +:+ ":" +:+ port)))).
Proof.
  split; [reflexivity|].
  exact (chaincode_endpoint_is_never_unspecified net cfg_listen_any
           "peer0" "peer0:7999" eq_refl).
Defined.

Lemma chaincode_address_takes_precedence_witness :
  viper_GetString cfg_chaincode_address chaincodeAddrKey ≠ ""
  ∧ viper_GetString cfg_chaincode_address_only chaincodeAddrKey
    = viper_GetString cfg_chaincode_address chaincodeAddrKey
  ∧ outcome (computeChaincodeEndpoint net cfg_chaincode_address "0.0.0.0")
    = outcome (computeChaincodeEndpoint net cfg_chaincode_address_only "peer0").
Proof.
  assert (viper_GetString cfg_chaincode_address chaincodeAddrKey ≠ "") as Ha
    by done.
  split; [exact Ha|]. split; [reflexivity|].
  exact (chaincode_address_takes_precedence net cfg_chaincode_address
           cfg_chaincode_address_only "0.0.0.0" "peer0" Ha eq_refl).
Defined.

Lemma unspecified_peer_needs_a_listen_address_witness :
  viper_GetString cfg_listen_any chaincodeAddrKey = ""
  ∧ parses_unspecified net "0.0.0.0" = true
  ∧ outcome (computeChaincodeEndpoint net cfg_listen_any "0.0.0.0")
    = Returned (Err "invalid endpoint for chaincode to connect").
Proof.
  split; [reflexivity|]. split; [reflexivity|].
  exact (unspecified_peer_needs_a_listen_address net cfg_listen_any "0.0.0.0"
           eq_refl eq_refl).
Defined.


Lemma Verify_passes_iff_all_blocks_pass_witness :
  ledger fsck3 = Some (good_ledger 3)
  ∧ GetBlockchainInfo (good_ledger 3) = OK (info_of 3)
  ∧ (Height (info_of 3) < uint64_modulus)%N
  ∧ (outcome (Verify env3 fsck3) = Returned tt ↔
       (∃ b0, GetBlockByNumber (good_ledger 3) 0 = OK b0)
       ∧ ∀ n, (1 ≤ n < Height (info_of 3))%N →
              passes env3 fsck3 (good_ledger 3)
                     (gossip_NewMCS env3 (bundle fsck3) (MkSigner [x01])) n
              = true).
Proof.
  do 3 (split; [reflexivity|]).
  exact (Verify_passes_iff_all_blocks_pass env3 fsck3 (good_ledger 3)
           (info_of 3) (MkSigner [x01]) eq_refl eq_refl eq_refl eq_refl).
Defined.

End MoreInstances.
